(** * Verification of scripts/dataset_creation.py (NBA draft career paths)

    A shallow embedding of the dataset-building pipeline:
    - [calculate_years_since_draft]      : the century heuristic for season labels;
    - [add_missing_players_to_draft_history] : reconciliation of the draft registry;
    - [scrape_career_paths]              : the per-draft-year update of placement files;
    - [map_countries_to_alpha3]          : the league-prefix to country resolver;
    - [create_dataframe_of_career_paths] : the aggregation join / filter / dedup.

    Data frames are lists of records (row order = index order); file
    contents are passed in and returned explicitly; the network and the
    country code list are parameters of the functions that use them. *)

From Stdlib Require Import Ascii String Sorting.Sorted Sorting.Permutation.
From stdpp Require Import base list gmap strings.

Open Scope Z_scope.

(* ================================================================== *)
(** ** Python helpers: [str.split('-')[0]] and [int(str)] *)
(* ================================================================== *)

Definition ascii_dash : Ascii.ascii := "-"%char.

(** [s.split('-')[0]]: the text before the first ['-'] (all of [s] if none). *)
Fixpoint first_piece_l (l : list Ascii.ascii) : list Ascii.ascii :=
  match l with
  | [] => []
  | c :: l' => if Ascii.eqb c ascii_dash then [] else c :: first_piece_l l'
  end.

Definition split_dash_first (s : string) : string :=
  String.string_of_list_ascii (first_piece_l (String.list_ascii_of_string s)).

Definition is_py_space (c : Ascii.ascii) : bool :=
  let n := Ascii.nat_of_ascii c in
  (n =? 32)%nat || ((9 <=? n)%nat && (n <=? 13)%nat).

Definition digit_value (c : Ascii.ascii) : option Z :=
  let n := Ascii.nat_of_ascii c in
  if ((48 <=? n)%nat && (n <=? 57)%nat) then Some (Z.of_nat n - 48) else None.

(** Digits, with single underscores allowed between two digits, as [int]
    accepts them; [prev_digit] records that the last character was a digit. *)
Fixpoint parse_digits (l : list Ascii.ascii) (acc : Z) (prev_digit : bool) : option Z :=
  match l with
  | [] => if prev_digit then Some acc else None
  | c :: l' =>
      match digit_value c with
      | Some d => parse_digits l' (acc * 10 + d) true
      | None =>
          if Ascii.eqb c "_"%char && prev_digit then parse_digits l' acc false
          else None
      end
  end.

Fixpoint drop_spaces (l : list Ascii.ascii) : list Ascii.ascii :=
  match l with
  | c :: l' => if is_py_space c then drop_spaces l' else l
  | [] => []
  end.

Definition strip_l (l : list Ascii.ascii) : list Ascii.ascii :=
  rev (drop_spaces (rev (drop_spaces l))).

(** [int(s)] for a string in base 10: surrounding ASCII whitespace, an
    optional sign, then decimal digits.  [None] is the [ValueError]. *)
Definition py_int (s : string) : option Z :=
  match strip_l (String.list_ascii_of_string s) with
  | c :: l =>
      if Ascii.eqb c "+"%char then parse_digits l 0 false
      else if Ascii.eqb c "-"%char then Z.opp <$> parse_digits l 0 false
      else parse_digits (c :: l) 0 false
  | [] => None
  end.

(* ================================================================== *)
(** ** [calculate_years_since_draft] *)
(* ================================================================== *)

(** What the function prints. *)
Inductive console_event :=
| PossibleIncorrectData (season : string) (draft_year : Z).

(** The test of the loop body, for one century offset. *)
Definition century_candidate_ok (current_century start_yy draft_year century_offset : Z) : bool :=
  let potential_year := current_century + century_offset + start_yy in
  (-10 <? Z.abs (potential_year - draft_year)) && (Z.abs (potential_year - draft_year) <? 30).

(** The [for century_offset in ...] loop: the first offset whose candidate
    passes [-10 < abs(potential_year - draft_year) < 30]. *)
Fixpoint try_century_offsets (current_century start_yy draft_year : Z)
    (offsets : list Z) : option Z :=
  match offsets with
  | [] => None
  | century_offset :: rest =>
      let potential_year := current_century + century_offset + start_yy in
      if century_candidate_ok current_century start_yy draft_year century_offset
      then Some (potential_year - draft_year)
      else try_century_offsets current_century start_yy draft_year rest
  end.

(** The function body with the list of century offsets as a parameter;
    [current_year] is [datetime.now().year]; [None] is the [ValueError]
    of [int]; the list holds what is printed. *)
Definition calculate_years_in_order (offsets : list Z) (current_year : Z)
    (season : string) (draft_year : Z) : option (list console_event * Z) :=
  match py_int (split_dash_first season) with
  | None => None
  | Some start_yy =>
      let current_century := current_year - current_year mod 100 in
      match try_century_offsets current_century start_yy draft_year offsets with
      | Some d => Some ([], d)
      | None =>
          Some ([PossibleIncorrectData season draft_year],
                current_century + start_yy - draft_year)
      end
  end.

Definition century_offsets : list Z := [-100; 0; 100].

Definition calculate_years_since_draft (current_year : Z) (season : string)
    (draft_year : Z) : option (list console_event * Z) :=
  calculate_years_in_order century_offsets current_year season draft_year.

(* ================================================================== *)
(** ** The draft registry and [add_missing_players_to_draft_history] *)
(* ================================================================== *)

(** A row of [data/nba_draft_history.json]; [PROBALLERS_ID] is [Int64]
    and may be null ([pd.NA]). *)
Record Entrant := mkEntrant {
  PLAYER_NAME : string;
  PROBALLERS_ID : option Z;
  SEASON : Z;
  OVERALL_PICK : Z
}.

(** The columns of a [DraftHistory] row that the function keeps. The
    endpoint delivers [SEASON] as text (both functions convert it with
    [astype(int)]) and [OVERALL_PICK] as an integer. *)
Record ApiDraftRow := mkApiDraftRow {
  api_PLAYER_NAME : string;
  api_SEASON : string;
  api_OVERALL_PICK : Z
}.

(** A cell compared by [Series.isin]: a Python [int] or [str]. An [int]
    never equals a [str]. *)
Inductive py_value :=
| PyInt (z : Z)
| PyStr (s : string).

Definition py_value_eqb (a b : py_value) : bool :=
  match a, b with
  | PyInt x, PyInt y => Z.eqb x y
  | PyStr x, PyStr y => String.eqb x y
  | _, _ => false
  end.

(** [Series.isin(values)] for one cell. *)
Definition isin (v : py_value) (values : list py_value) : bool :=
  existsb (py_value_eqb v) values.

(** [is_new_draft_player]: [~api.SEASON.isin(file.SEASON) &
    ~api.OVERALL_PICK.isin(file.OVERALL_PICK)], the API's [SEASON] still
    text and the file's an integer. *)
Definition is_new_draft_player (from_file : list Entrant) (r : ApiDraftRow) : bool :=
  negb (isin (PyStr (api_SEASON r)) (map (fun e => PyInt (SEASON e)) from_file))
  && negb (isin (PyInt (api_OVERALL_PICK r)) (map (fun e => PyInt (OVERALL_PICK e)) from_file)).

(** A new row: [SEASON] through [astype(int)] (Python's [int] on the
    text, [None] for its [ValueError]) and [PROBALLERS_ID = pd.NA]. *)
Definition new_draft_entrant (r : ApiDraftRow) : option Entrant :=
  (fun season => mkEntrant (api_PLAYER_NAME r) None season (api_OVERALL_PICK r))
  <$> py_int (api_SEASON r).

(** The order of [sort_values(['SEASON', 'OVERALL_PICK'], ascending=[False, True])]. *)
Definition draft_order_le (a b : Entrant) : bool :=
  (SEASON b <? SEASON a) || ((SEASON a =? SEASON b) && (OVERALL_PICK a <=? OVERALL_PICK b)).

(** The multi-column sort of pandas is a stable lexicographic sort:
    insertion sort, placing an element before the first one it is [<=] to. *)
Fixpoint insert_draft (x : Entrant) (l : list Entrant) : list Entrant :=
  match l with
  | [] => [x]
  | y :: l' => if draft_order_le x y then x :: y :: l' else y :: insert_draft x l'
  end.

Fixpoint sort_draft_history (l : list Entrant) : list Entrant :=
  match l with
  | [] => []
  | x :: l' => insert_draft x (sort_draft_history l')
  end.

(** The registry saved back: the file's rows, then the new ones, sorted
    and reindexed (the index is the list position). [None] is an
    exception: a file holding [[]] reads back with no columns, so
    [df['PROBALLERS_ID']] raises [KeyError]; [astype(int)] raises
    [ValueError] on a new row whose [SEASON] is not an integer. *)
Definition add_missing_players_to_draft_history (from_file : list Entrant)
    (from_nba_api : list ApiDraftRow) : option (list Entrant) :=
  match from_file with
  | [] => None
  | _ =>
      match mapM new_draft_entrant (List.filter (is_new_draft_player from_file) from_nba_api) with
      | Some new_draft => Some (sort_draft_history (from_file ++ new_draft))
      | None => None
      end
  end.

(** The rule the specification states, for comparison with the code's
    [is_new_draft_player]: new iff the draft year is absent from the file's
    draft years and the pick absent from the file's picks. *)
Definition spec_is_new_draft_player (from_file : list Entrant) (season pick : Z) : bool :=
  negb (existsb (fun e => SEASON e =? season) from_file)
  && negb (existsb (fun e => OVERALL_PICK e =? pick) from_file).

(* ================================================================== *)
(** ** [scrape_career_paths] *)
(* ================================================================== *)

(** A row of [data/career_paths/career_paths_draft_{year}.json]. *)
Record ScrapedRow := mkScrapedRow {
  sr_Player_Name : string;
  sr_Proballers_ID : Z;
  sr_Season : string;
  sr_Team : string;
  sr_League : string;
  sr_Draft_Year : Z
}.

(** What a Proballers profile page offers: no [section#anchor-regular-season],
    a section without a [table], or the table's (Season, Team, League) rows. *)
Inductive profile_page :=
| NoRegularSeasonSection
| SectionWithoutTable
| RegularSeasonTable (rows : list (string * string * string)).

Inductive scrape_event :=
| NoDataForDraftYear (draft_year : Z)
| UpdatingCareerPaths (n : nat)
| NoCareerDataFound (player_name : string) (id_proballers : Z).

(** The files written so far (one per draft year) and the console. *)
Record scrape_state := mkScrapeState {
  career_path_files : gmap Z (list ScrapedRow);
  scrape_log : list scrape_event
}.

(** How the [for draft_year in ...] loop ends: normally, by the [return]
    of the missing-year check, or by an exception. *)
Inductive loop_outcome :=
| LoopDone (st : scrape_state)
| LoopReturned (st : scrape_state)
| LoopRaised (st : scrape_state).

(** Rows with a non-null [PROBALLERS_ID] and [SEASON == draft_year], with the id. *)
Definition players_to_update (registry : list Entrant) (draft_year : Z) : list (Entrant * Z) :=
  omap (fun e => match PROBALLERS_ID e with
                 | Some id => if SEASON e =? draft_year then Some (e, id) else None
                 | None => None
                 end) registry.

Definition scraped_row (e : Entrant) (id : Z) (draft_year : Z)
    (r : string * string * string) : ScrapedRow :=
  let '(season, team, league) := r in
  mkScrapedRow (PLAYER_NAME e) id season team league draft_year.

(** The inner loop over players: the list [dfs_career_paths] and the log. *)
Fixpoint player_tables (fetch : Z -> profile_page) (draft_year : Z)
    (players : list (Entrant * Z)) (log : list scrape_event)
    : list (list ScrapedRow) * list scrape_event :=
  match players with
  | [] => ([], log)
  | (e, id) :: rest =>
      match fetch id with
      | NoRegularSeasonSection =>
          player_tables fetch draft_year rest (log ++ [NoCareerDataFound (PLAYER_NAME e) id])
      | SectionWithoutTable => player_tables fetch draft_year rest log
      | RegularSeasonTable rows =>
          let '(dfs, log') := player_tables fetch draft_year rest log in
          (map (scraped_row e id draft_year) rows :: dfs, log')
      end
  end.

(** The outer loop; [pd.concat] of an empty list raises [ValueError]. *)
Fixpoint scrape_years (fetch : Z -> profile_page) (registry : list Entrant)
    (years : list Z) (st : scrape_state) : loop_outcome :=
  match years with
  | [] => LoopDone st
  | draft_year :: rest =>
      if negb (existsb (fun e => SEASON e =? draft_year) registry) then
        LoopReturned (mkScrapeState (career_path_files st)
                                    (scrape_log st ++ [NoDataForDraftYear draft_year]))
      else
        let players := players_to_update registry draft_year in
        let log1 := scrape_log st ++ [UpdatingCareerPaths (List.length players)] in
        let '(dfs, log2) := player_tables fetch draft_year players log1 in
        match dfs with
        | [] => LoopRaised (mkScrapeState (career_path_files st) log2)
        | _ => scrape_years fetch registry rest
                 (mkScrapeState (<[draft_year := concat dfs]> (career_path_files st)) log2)
        end
  end.

(** The function: [inr] is the state after a normal end or the [return],
    [inl] the state left behind by an exception. *)
Definition scrape_career_paths (fetch : Z -> profile_page) (registry : list Entrant)
    (draft_years_to_update : list Z) (st : scrape_state) : scrape_state + scrape_state :=
  match scrape_years fetch registry draft_years_to_update st with
  | LoopDone st' | LoopReturned st' => inr st'
  | LoopRaised st' => inl st'
  end.

(* ================================================================== *)
(** ** [map_countries_to_alpha3] *)
(* ================================================================== *)

(** A value of [data/league_to_country_mappings.json]; [json.load] gives
    [None] for a JSON [null]. *)
Record CountryMapping := mkCountryMapping {
  ALPHA_3 : option string;
  NAME : option string
}.

(** A [pycountry] country record. *)
Record Country := mkCountry {
  alpha_3 : string;
  name : string
}.

(** A row of a file of [data/career_paths_per_draft_year]. *)
Record PlacementRow := mkPlacementRow {
  Player_Name : string;
  Proballers_ID : Z;
  Season : string;
  Team : string;
  League : string
}.

(** A row of the aggregated frame: the file's columns and those the
    pipeline adds ([None] is a null / NaN cell). *)
Record CareerPathRow := mkCareerPathRow {
  placement : PlacementRow;
  League_Prefix : string;
  Country_Alpha3 : option string;
  Country_Name : option string;
  Draft_Year : option Z;
  Overall_Pick : option Z;
  Years_From_Draft : option Z
}.

#[global] Instance PlacementRow_eq_dec : EqDecision PlacementRow.
Proof. solve_decision. Defined.
#[global] Instance CareerPathRow_eq_dec : EqDecision CareerPathRow.
Proof. solve_decision. Defined.

Definition set_country (alpha3 nm : option string) (r : CareerPathRow) : CareerPathRow :=
  mkCareerPathRow (placement r) (League_Prefix r) alpha3 nm
    (Draft_Year r) (Overall_Pick r) (Years_From_Draft r).

(** [df['League_Prefix'].map(prefix_to_alpha3)] and [.map(prefix_to_name)]. *)
Definition initial_country (country_mappings : gmap string CountryMapping)
    (r : CareerPathRow) : CareerPathRow :=
  set_country (country_mappings !! League_Prefix r ≫= ALPHA_3)
              (country_mappings !! League_Prefix r ≫= NAME) r.

(** [Series.unique()]: first occurrences, in order. *)
Fixpoint unique_in_order (seen : list string) (l : list string) : list string :=
  match l with
  | [] => []
  | x :: l' =>
      if decide (x ∈ seen) then unique_in_order seen l'
      else x :: unique_in_order (x :: seen) l'
  end.

(** The [try] block: [countries.get(alpha_2=...)] or [get(alpha_3=...)]
    by the prefix's length; [None] when the length is neither or when
    [get] returns [None] (the [AttributeError] that is caught). *)
Definition country_lookup (lookup_alpha_2 lookup_alpha_3 : string -> option Country)
    (prefix : string) : option Country :=
  if (String.length prefix =? 2)%nat then lookup_alpha_2 prefix
  else if (String.length prefix =? 3)%nat then lookup_alpha_3 prefix
  else None.

(** One iteration of [for country_unmapped in countries_without_mapping]. *)
Definition resolve_unmapped (lookup_alpha_2 lookup_alpha_3 : string -> option Country)
    (st : list CareerPathRow * gmap string CountryMapping) (country_unmapped : string)
    : list CareerPathRow * gmap string CountryMapping :=
  let '(rows, country_mappings) := st in
  match country_lookup lookup_alpha_2 lookup_alpha_3 country_unmapped with
  | Some c =>
      (map (fun r => if decide (League_Prefix r = country_unmapped)
                     then set_country (Some (alpha_3 c)) (Some (name c)) r else r) rows,
       <[country_unmapped := mkCountryMapping (Some (alpha_3 c)) (Some (name c))]> country_mappings)
  | None => (rows, country_mappings)
  end.

Definition countries_without_mapping (rows : list CareerPathRow) : list string :=
  unique_in_order [] (map League_Prefix
    (List.filter (fun r => bool_decide (Country_Alpha3 r = None)) rows)).

(** The returned frame and the mapping written back to the JSON file
    (its key order, [sorted(...)], is that of [map_to_list]). *)
Definition map_countries_to_alpha3 (lookup_alpha_2 lookup_alpha_3 : string -> option Country)
    (rows : list CareerPathRow) (country_mappings : gmap string CountryMapping)
    : list CareerPathRow * gmap string CountryMapping :=
  let rows0 := map (initial_country country_mappings) rows in
  foldl (resolve_unmapped lookup_alpha_2 lookup_alpha_3) (rows0, country_mappings)
        (countries_without_mapping rows0).

(* ================================================================== *)
(** ** [create_dataframe_of_career_paths] *)
(* ================================================================== *)

(** [df['League'].str.split('-').str[0]]. *)
Definition with_league_prefix (p : PlacementRow) : CareerPathRow :=
  mkCareerPathRow p (split_dash_first (League p)) None None None None None.

Definition set_draft (draft_year overall_pick : option Z) (r : CareerPathRow) : CareerPathRow :=
  mkCareerPathRow (placement r) (League_Prefix r) (Country_Alpha3 r) (Country_Name r)
    draft_year overall_pick (Years_From_Draft r).

(** The registry rows whose [PROBALLERS_ID] equals the row's [Proballers_ID]. *)
Definition registry_matches (registry : list Entrant) (id : Z) : list Entrant :=
  List.filter (fun e => bool_decide (PROBALLERS_ID e = Some id)) registry.

(** [pd.merge(..., how='left')] for one left row: one output row per
    match, or the row with null draft columns when nothing matches. *)
Definition merge_draft_history (registry : list Entrant) (r : CareerPathRow) : list CareerPathRow :=
  match registry_matches registry (Proballers_ID (placement r)) with
  | [] => [r]
  | ms => map (fun e => set_draft (Some (SEASON e)) (Some (OVERALL_PICK e)) r) ms
  end.

(** [calculate_years_since_draft] applied to a row whose draft year may
    be NaN: NaN makes every comparison false and the result NaN; the
    outer [None] is the [ValueError] of [int]. *)
Definition years_from_draft_cell (current_year : Z) (season : string) (draft_year : option Z)
    : option (option Z) :=
  match draft_year with
  | Some d => (fun res => Some res.2) <$> calculate_years_since_draft current_year season d
  | None => (fun _ => None) <$> py_int (split_dash_first season)
  end.

Definition with_years_from_draft (current_year : Z) (r : CareerPathRow) : option CareerPathRow :=
  (fun y => mkCareerPathRow (placement r) (League_Prefix r) (Country_Alpha3 r)
              (Country_Name r) (Draft_Year r) (Overall_Pick r) y)
  <$> years_from_draft_cell current_year (Season (placement r)) (Draft_Year r).

(** [(Years_From_Draft > -10) & (Years_From_Draft <= 30)]; NaN fails both. *)
Definition keep_row (r : CareerPathRow) : bool :=
  match Years_From_Draft r with
  | Some y => (-10 <? y) && (y <=? 30)
  | None => false
  end.

(** [drop_duplicates()]: keep the first of equal rows (NaN equals NaN). *)
Fixpoint drop_duplicates_aux (seen : list CareerPathRow) (l : list CareerPathRow)
    : list CareerPathRow :=
  match l with
  | [] => []
  | r :: l' =>
      if decide (r ∈ seen) then drop_duplicates_aux seen l'
      else r :: drop_duplicates_aux (r :: seen) l'
  end.

Definition drop_duplicates (l : list CareerPathRow) : list CareerPathRow :=
  drop_duplicates_aux [] l.

(** The pipeline: the per-year files (in [os.listdir] order), the registry
    and the mapping file.  Returns the mapping written back and the frame,
    [None] when an exception is raised ([pd.concat] of no file, or [int]). *)
Definition create_dataframe_of_career_paths (current_year : Z)
    (lookup_alpha_2 lookup_alpha_3 : string -> option Country)
    (files : list (list PlacementRow)) (registry : list Entrant)
    (country_mappings : gmap string CountryMapping)
    : gmap string CountryMapping * option (list CareerPathRow) :=
  match files with
  | [] => (country_mappings, None)
  | _ =>
      let rows := map with_league_prefix (concat files) in
      let '(rows1, mappings1) :=
        map_countries_to_alpha3 lookup_alpha_2 lookup_alpha_3 rows country_mappings in
      let rows2 := concat (map (merge_draft_history registry) rows1) in
      match mapM (with_years_from_draft current_year) rows2 with
      | None => (mappings1, None)
      | Some rows3 => (mappings1, Some (drop_duplicates (List.filter keep_row rows3)))
      end
  end.

(** The rows of a frame that come from the placement row [p]. *)
Definition rows_derived_from (p : PlacementRow) (l : list CareerPathRow) : list CareerPathRow :=
  List.filter (fun r => bool_decide (placement r = p)) l.

(* ================================================================== *)
(** ** [download_draft_history] *)
(* ================================================================== *)

(** The first build of the registry: every fetched row, in order, with
    [SEASON] through [astype(int)] and a null [PROBALLERS_ID]; [None] is
    the [ValueError] of a [SEASON] that is not an integer. *)
Definition download_draft_history (from_nba_api : list ApiDraftRow) : option (list Entrant) :=
  mapM new_draft_entrant from_nba_api.

(* ================================================================== *)
(** ** visualisations.py: [plot_countries_per_year_away_from_draft] *)
(* ================================================================== *)

(** The subset of [drop_duplicates(['Proballers_ID', 'Years_From_Draft', 'Country_Alpha3'])]. *)
Definition player_year_country (r : CareerPathRow) : Z * option Z * option string :=
  (Proballers_ID (placement r), Years_From_Draft r, Country_Alpha3 r).

(** Keep the first row of each (player, years from draft, country). *)
Fixpoint drop_duplicates_subset_aux (seen : list (Z * option Z * option string))
    (l : list CareerPathRow) : list CareerPathRow :=
  match l with
  | [] => []
  | r :: l' =>
      if decide (player_year_country r ∈ seen) then drop_duplicates_subset_aux seen l'
      else r :: drop_duplicates_subset_aux (player_year_country r :: seen) l'
  end.

Definition drop_duplicates_subset (l : list CareerPathRow) : list CareerPathRow :=
  drop_duplicates_subset_aux [] l.

(** The key of [groupby(['Years_From_Draft', 'Country_Alpha3', 'Country_Name'])];
    a row with a null key cell belongs to no group ([dropna=True]). *)
Definition group_key (r : CareerPathRow) : option (Z * string * string) :=
  match Years_From_Draft r, Country_Alpha3 r, Country_Name r with
  | Some y, Some a, Some n => Some (y, a, n)
  | _, _, _ => None
  end.

(** A row of [.size().reset_index(name='Count')]. *)
Record CountryYearCount := mkCountryYearCount {
  cy_Years_From_Draft : Z;
  cy_Country_Alpha3 : string;
  cy_Country_Name : string;
  Count : nat
}.

(** The group keys in the order [groupby] sorts them. *)
Definition group_key_le (a b : Z * string * string) : bool :=
  let '(y1, a1, n1) := a in
  let '(y2, a2, n2) := b in
  (y1 <? y2) || ((y1 =? y2) &&
    match String.compare a1 a2 with
    | Lt => true
    | Eq => match String.compare n1 n2 with Gt => false | _ => true end
    | Gt => false
    end).

Fixpoint insert_group_key (k : Z * string * string) (l : list (Z * string * string))
    : list (Z * string * string) :=
  match l with
  | [] => [k]
  | k' :: l' => if group_key_le k k' then k :: k' :: l' else k' :: insert_group_key k l'
  end.

Fixpoint distinct_group_keys (seen : list (Z * string * string)) (l : list CareerPathRow)
    : list (Z * string * string) :=
  match l with
  | [] => seen
  | r :: l' =>
      match group_key r with
      | Some k => if decide (k ∈ seen) then distinct_group_keys seen l'
                  else distinct_group_keys (insert_group_key k seen) l'
      | None => distinct_group_keys seen l'
      end
  end.

Definition rows_in_group (k : Z * string * string) (l : list CareerPathRow) : list CareerPathRow :=
  List.filter (fun r => bool_decide (group_key r = Some k)) l.

(** The frame plotted by [px.scatter_geo] (the figure itself is not modelled). *)
Definition countries_per_year_from_draft (df_career_paths : list CareerPathRow)
    : list CountryYearCount :=
  let df := drop_duplicates_subset df_career_paths in
  map (fun k => let '(y, a, n) := k in
                mkCountryYearCount y a n (List.length (rows_in_group k df)))
      (distinct_group_keys [] df).

(** A registry in the order [sort_values] leaves it. *)
Definition draft_sorted (l : list Entrant) : Prop :=
  Sorted (fun a b => draft_order_le a b = true) l.

(** Inputs used by the concrete runs below. *)

Definition example_registry : list Entrant :=
  [mkEntrant "Player A" (Some 1) 2020 1].

Definition example_table_page (id : Z) : profile_page :=
  RegularSeasonTable [("20-21", "Bourg-en-Bresse", "FRA-1")].

Definition empty_scrape_state : scrape_state := mkScrapeState ∅ [].

Definition example_country_cache : gmap string CountryMapping :=
  {[ "FR" := mkCountryMapping None None ]}.

Definition example_lookup_alpha_2 (k : string) : option Country :=
  if String.eqb k "FR" then Some (mkCountry "FRA" "France") else None.

Definition example_fr_rows : list CareerPathRow :=
  [with_league_prefix (mkPlacementRow "Player A" 1 "20-21" "Nanterre" "FR-1")].

Definition example_placement : PlacementRow :=
  mkPlacementRow "Player A" 1 "05-06" "Le Mans" "FRA-1".

Definition example_registry_2024 : list Entrant :=
  [mkEntrant "Player A" (Some 11) 2024 1; mkEntrant "Player B" (Some 12) 2024 2;
   mkEntrant "Player C" (Some 13) 2024 3; mkEntrant "Player D" (Some 14) 2024 4;
   mkEntrant "Player E" (Some 15) 2024 5].

Definition example_draft_registry : list Entrant :=
  [mkEntrant "Player A" (Some 1) 2023 1].

(** Auxiliary definitions used to state the properties below. *)

Definition outcome_state (o : loop_outcome) : scrape_state :=
  match o with LoopDone st | LoopReturned st | LoopRaised st => st end.

Definition scrape_result_state (r : scrape_state + scrape_state) : scrape_state :=
  match r with inl st | inr st => st end.

(** Where a written row comes from. *)
Definition row_from_registry (registry : list Entrant) (draft_year : Z) (r : ScrapedRow) : Prop :=
  sr_Draft_Year r = draft_year
  /\ exists e, In e registry /\ SEASON e = draft_year
               /\ PROBALLERS_ID e = Some (sr_Proballers_ID r)
               /\ PLAYER_NAME e = sr_Player_Name r.

Definition row_agrees_with (country_mappings : gmap string CountryMapping)
    (r : CareerPathRow) : Prop :=
  Country_Alpha3 r = country_mappings !! League_Prefix r ≫= ALPHA_3
  /\ Country_Name r = country_mappings !! League_Prefix r ≫= NAME.

(** What a row of the aggregated frame carries: a placement row of one of
    the files, its league prefix, the country cells of the mapping written
    back, the draft year and pick of a registry row with its identifier, and
    the years from draft computed from them, inside the outlier window. *)
Definition aggregate_row_ok (current_year : Z) (files : list (list PlacementRow))
    (registry : list Entrant) (mappings : gmap string CountryMapping) (r : CareerPathRow) : Prop :=
  In (placement r) (concat files)
  /\ League_Prefix r = split_dash_first (League (placement r))
  /\ row_agrees_with mappings r
  /\ exists e y log,
       In e registry /\ PROBALLERS_ID e = Some (Proballers_ID (placement r))
       /\ Draft_Year r = Some (SEASON e) /\ Overall_Pick r = Some (OVERALL_PICK e)
       /\ Years_From_Draft r = Some y /\ -10 < y <= 30
       /\ calculate_years_since_draft current_year (Season (placement r)) (SEASON e) = Some (log, y).

Definition group_key_sorted (l : list (Z * string * string)) : Prop :=
  Sorted (fun a b => group_key_le a b = true) l.

Definition plotted_key (c : CountryYearCount) : Z * string * string :=
  (cy_Years_From_Draft c, cy_Country_Alpha3 c, cy_Country_Name c).

Definition example_plot_row (id : Z) (team : string) : CareerPathRow :=
  mkCareerPathRow (mkPlacementRow "Player" id "23-24" team "FRA-1") "FRA"
    (Some "FRA") (Some "France") (Some 2023) (Some 1) (Some 0).

(* ================================================================== *)
(** * Properties *)
(* ================================================================== *)

(* ------------------------------------------------------------------ *)
(** ** The century heuristic *)
(* ------------------------------------------------------------------ *)

Section CenturyHeuristic.

Example calculate_99_00 : calculate_years_since_draft 2026 "99-00" 1998 = Some ([], 1).
Proof. reflexivity. Qed.
Example calculate_bad_label : calculate_years_since_draft 2026 "xx-06" 2023 = None.
Proof. reflexivity. Qed.
Example calculate_fallback : calculate_years_since_draft 2026 "50-51" 2003 =
  Some ([PossibleIncorrectData "50-51" 2003], 47).
Proof. reflexivity. Qed.

Lemma century_candidate_ok_iff cc yy dy o :
  century_candidate_ok cc yy dy o = true <-> Z.abs (cc + o + yy - dy) < 30.
Proof.
  unfold century_candidate_ok. rewrite andb_true_iff, !Z.ltb_lt.
  pose proof (Z.abs_nonneg (cc + o + yy - dy)). lia.
Qed.

Lemma try_century_offsets_some cc yy dy offs d :
  try_century_offsets cc yy dy offs = Some d ->
  exists o, In o offs /\ century_candidate_ok cc yy dy o = true /\ d = cc + o + yy - dy.
Proof.
  induction offs as [|o offs IH]; simpl; [discriminate|].
  destruct (century_candidate_ok cc yy dy o) eqn:Hok.
  - intros [= <-]. exists o. auto.
  - intros H. destruct (IH H) as (o' & ? & ? & ?). exists o'. auto.
Qed.

Lemma try_century_offsets_none cc yy dy offs :
  try_century_offsets cc yy dy offs = None ->
  forall o, In o offs -> century_candidate_ok cc yy dy o = false.
Proof.
  induction offs as [|o offs IH]; simpl; [tauto|].
  destruct (century_candidate_ok cc yy dy o) eqn:Hok; [discriminate|].
  intros H o' [<-|Hin]; auto.
Qed.

Lemma try_century_offsets_complete cc yy dy offs o :
  In o offs -> century_candidate_ok cc yy dy o = true ->
  exists d, try_century_offsets cc yy dy offs = Some d.
Proof.
  intros Hin Hok. destruct (try_century_offsets cc yy dy offs) eqn:E; [eauto|].
  rewrite (try_century_offsets_none _ _ _ _ E o Hin) in Hok. discriminate.
Qed.

(** Two candidates 100 years apart never both pass the test. *)
Lemma century_candidate_unique cc yy dy o1 o2 :
  In o1 century_offsets -> In o2 century_offsets ->
  century_candidate_ok cc yy dy o1 = true -> century_candidate_ok cc yy dy o2 = true ->
  o1 = o2.
Proof.
  rewrite !century_candidate_ok_iff. unfold century_offsets; simpl.
  intros H1 H2 A1 A2.
  destruct (Z.abs_spec (cc + o1 + yy - dy)) as [[? E1]|[? E1]]; rewrite E1 in A1;
  destruct (Z.abs_spec (cc + o2 + yy - dy)) as [[? E2]|[? E2]]; rewrite E2 in A2;
  intuition lia.
Qed.

(** Any list of the three offsets in which every accepted candidate is
    the same gives the result of the source's order. *)
Lemma try_century_offsets_perm cc yy dy offs :
  Permutation offs century_offsets ->
  try_century_offsets cc yy dy offs = try_century_offsets cc yy dy century_offsets.
Proof.
  intros Hp.
  destruct (try_century_offsets cc yy dy offs) as [d|] eqn:E.
  - destruct (try_century_offsets_some _ _ _ _ _ E) as (o & Hin & Hok & ->).
    assert (Hin' : In o century_offsets) by (eapply Permutation_in; eauto).
    destruct (try_century_offsets_complete _ _ _ _ _ Hin' Hok) as [d' E'].
    rewrite E'. destruct (try_century_offsets_some _ _ _ _ _ E') as (o' & Hin2 & Hok' & ->).
    rewrite (century_candidate_unique cc yy dy o o'); auto.
  - destruct (try_century_offsets cc yy dy century_offsets) as [d'|] eqn:E'; [|reflexivity].
    destruct (try_century_offsets_some _ _ _ _ _ E') as (o' & Hin2 & Hok' & _).
    assert (Hin' : In o' offs) by (eapply Permutation_in; [symmetry; eauto | eauto]).
    rewrite (try_century_offsets_none _ _ _ _ E o' Hin') in Hok'. discriminate.
Qed.

End CenturyHeuristic.

(** C1 (code_bug evidence): for season "85-86", draft year 2003, in a year
    of the century 2000, none of the candidates 1985, 2085, 2185 has an
    offset in (-10, 30), yet the code accepts 1985 in its loop (its test
    is on the absolute offset) and returns -18 with no warning, where the
    fallback of the current century would give 82. *)
Theorem calculate_accepts_offset_below_window :
  calculate_years_since_draft 2026 "85-86" 2003 = Some ([], -18)
  /\ (forall o, In o century_offsets -> ~ (-10 < 2000 + o + 85 - 2003 < 30))
  /\ 2000 + 85 - 2003 = 82.
Proof.
  split; [reflexivity|]. split; [|reflexivity].
  unfold century_offsets; simpl. intros o [<-|[<-|[<-|[]]]]; lia.
Qed.

(** C3 (code_bug evidence): season "05-06", draft year 2023, current year
    2026: the loop accepts 2005 (offset -18, absolute value below 30), so
    the result -18 comes with no data-quality warning. *)
Theorem calculate_05_06_no_warning :
  calculate_years_since_draft 2026 "05-06" 2023 = Some ([], -18).
Proof. reflexivity. Qed.

(** C4: when the label parses and the current-century candidate lies in
    [reference_year - 9, reference_year + 29], that candidate is selected
    (no warning, its offset returned). *)
Theorem calculate_selects_current_century (current_year draft_year start_yy : Z)
    (season : string)
    (Hparse : py_int (split_dash_first season) = Some start_yy)
    (Hwin : draft_year - 9 <= current_year - current_year mod 100 + start_yy <= draft_year + 29) :
  calculate_years_since_draft current_year season draft_year
  = Some ([], current_year - current_year mod 100 + start_yy - draft_year).
Proof.
  unfold calculate_years_since_draft, calculate_years_in_order. rewrite Hparse.
  set (cc := current_year - current_year mod 100) in *.
  unfold century_offsets; simpl.
  destruct (century_candidate_ok cc start_yy draft_year (-100)) eqn:E1.
  - apply century_candidate_ok_iff in E1.
    destruct (Z.abs_spec (cc + -100 + start_yy - draft_year)) as [[? E]|[? E]];
      rewrite E in E1; lia.
  - assert (E0 : century_candidate_ok cc start_yy draft_year 0 = true).
    { apply century_candidate_ok_iff.
      destruct (Z.abs_spec (cc + 0 + start_yy - draft_year)) as [[? E]|[? E]];
        rewrite E; lia. }
    rewrite E0. do 3 f_equal. lia.
Qed.

Lemma calculate_selects_current_century_witness :
  py_int (split_dash_first "23-24") = Some 23
  /\ 2015 - 9 <= 2026 - 2026 mod 100 + 23 <= 2015 + 29
  /\ calculate_years_since_draft 2026 "23-24" 2015 = Some ([], 2026 - 2026 mod 100 + 23 - 2015).
Proof.
  split; [reflexivity|]. split; [vm_compute; split; discriminate|].
  apply (calculate_selects_current_century 2026 2015 23 "23-24"); [reflexivity|].
  vm_compute; split; discriminate.
Defined.

(** C9: at most one of the three century candidates passes the test, so
    every evaluation order of the three offsets gives the same result. *)
Theorem calculate_order_irrelevant (offsets : list Z) (current_year : Z)
    (season : string) (draft_year : Z)
    (Hperm : Permutation offsets century_offsets) :
  (forall cc yy o1 o2, In o1 offsets -> In o2 offsets ->
     century_candidate_ok cc yy draft_year o1 = true ->
     century_candidate_ok cc yy draft_year o2 = true -> o1 = o2)
  /\ calculate_years_in_order offsets current_year season draft_year
     = calculate_years_since_draft current_year season draft_year.
Proof.
  split.
  - intros cc yy o1 o2 H1 H2.
    apply century_candidate_unique; eapply Permutation_in; eauto.
  - unfold calculate_years_since_draft, calculate_years_in_order.
    destruct (py_int (split_dash_first season)); [|reflexivity].
    rewrite (try_century_offsets_perm _ _ _ _ Hperm). reflexivity.
Qed.

Lemma calculate_order_irrelevant_witness :
  Permutation [0; -100; 100] century_offsets
  /\ calculate_years_in_order [0; -100; 100] 2026 "05-06" 2023
     = calculate_years_since_draft 2026 "05-06" 2023.
Proof.
  assert (Hp : Permutation [0; -100; 100] century_offsets)
    by (unfold century_offsets; apply perm_swap).
  split; [exact Hp|].
  exact (proj2 (calculate_order_irrelevant [0; -100; 100] 2026 "05-06" 2023 Hp)).
Defined.

(* ------------------------------------------------------------------ *)
(** ** Registry reconciliation *)
(* ------------------------------------------------------------------ *)

Lemma forall2_in_r {A B} (R : A -> B -> Prop) l k y :
  Forall2 R l k -> In y k -> exists x, In x l /\ R x y.
Proof.
  induction 1 as [|x y' l k Hxy _ IH]; simpl; [tauto|].
  intros [<-|Hy]; [eauto|]. destruct (IH Hy) as (x' & ? & ?). eauto.
Qed.

Lemma forall2_in_l {A B} (R : A -> B -> Prop) l k x :
  Forall2 R l k -> In x l -> exists y, In y k /\ R x y.
Proof.
  induction 1 as [|x' y l k Hxy _ IH]; simpl; [tauto|].
  intros [<-|Hx]; [eauto|]. destruct (IH Hx) as (y' & ? & ?). eauto.
Qed.

Section Reconciliation.

Lemma draft_order_le_total a b :
  draft_order_le a b = false -> draft_order_le b a = true.
Proof.
  unfold draft_order_le. rewrite orb_false_iff, andb_false_iff, Z.ltb_ge, Z.eqb_neq, Z.leb_gt.
  rewrite orb_true_iff, andb_true_iff, Z.ltb_lt, Z.eqb_eq, Z.leb_le. lia.
Qed.

Lemma insert_draft_perm x l : Permutation (insert_draft x l) (x :: l).
Proof.
  induction l as [|y l IH]; simpl; [reflexivity|].
  destruct (draft_order_le x y); [reflexivity|].
  rewrite IH. apply perm_swap.
Qed.

Lemma sort_draft_history_perm l : Permutation (sort_draft_history l) l.
Proof.
  induction l as [|x l IH]; simpl; [reflexivity|].
  rewrite insert_draft_perm, IH. reflexivity.
Qed.

Lemma insert_draft_sorted x l : draft_sorted l -> draft_sorted (insert_draft x l).
Proof.
  unfold draft_sorted. induction 1 as [|y l Hs IH Hhd]; simpl.
  - repeat constructor.
  - destruct (draft_order_le x y) eqn:Exy.
    + constructor; [constructor; auto | constructor; auto].
    + apply draft_order_le_total in Exy. constructor; [exact IH|].
      destruct l as [|z l]; simpl.
      * constructor; auto.
      * inversion Hhd; subst.
        destruct (draft_order_le x z); constructor; auto.
Qed.

Lemma sort_draft_history_sorted l : draft_sorted (sort_draft_history l).
Proof.
  induction l as [|x l IH]; simpl; [constructor|]. by apply insert_draft_sorted.
Qed.

(** Sorting a sorted registry changes nothing (the sort is stable). *)
Lemma sort_draft_history_id l : draft_sorted l -> sort_draft_history l = l.
Proof.
  unfold draft_sorted. induction 1 as [|x l Hs IH Hhd]; simpl; [reflexivity|].
  rewrite IH. destruct l as [|y l]; simpl; [reflexivity|].
  inversion Hhd; subst. by rewrite H0.
Qed.

Lemma isin_str_int (x : string) (l : list Z) :
  isin (PyStr x) (map PyInt l) = false.
Proof. induction l as [|y l IH]; [reflexivity|]. exact IH. Qed.

Lemma isin_int_int (x : Z) (l : list Z) :
  isin (PyInt x) (map PyInt l) = existsb (fun y => Z.eqb x y) l.
Proof. induction l as [|y l IH]; [reflexivity|]. simpl. rewrite <- IH. reflexivity. Qed.

(** The year test of [is_new_draft_player] never matches: a row is new
    exactly when its pick is absent from the file. *)
Lemma is_new_draft_player_pick (from_file : list Entrant) (r : ApiDraftRow) :
  is_new_draft_player from_file r
  = negb (existsb (fun e => OVERALL_PICK e =? api_OVERALL_PICK r) from_file).
Proof.
  unfold is_new_draft_player. rewrite <- (map_map SEASON PyInt), isin_str_int.
  rewrite <- (map_map OVERALL_PICK PyInt), isin_int_int. simpl. f_equal.
  induction from_file as [|e l IH]; [reflexivity|]. simpl. rewrite IH, Z.eqb_sym. reflexivity.
Qed.

Lemma new_draft_entrant_spec (r : ApiDraftRow) (e : Entrant) :
  new_draft_entrant r = Some e ->
  PLAYER_NAME e = api_PLAYER_NAME r /\ PROBALLERS_ID e = None
  /\ py_int (api_SEASON r) = Some (SEASON e) /\ OVERALL_PICK e = api_OVERALL_PICK r.
Proof.
  unfold new_draft_entrant. destruct (py_int (api_SEASON r)) as [y|]; simpl; [|discriminate].
  intros [= <-]. auto.
Qed.

(** A registry holding every fetched pick makes no fetched row new. *)
Lemma no_new_when_picks_present (out : list Entrant) (rs : list ApiDraftRow) :
  (forall r, In r rs -> exists e, In e out /\ OVERALL_PICK e = api_OVERALL_PICK r) ->
  List.filter (is_new_draft_player out) rs = [].
Proof.
  intros Hp. induction rs as [|r rs IH]; [reflexivity|].
  simpl. rewrite is_new_draft_player_pick.
  destruct (Hp r (or_introl eq_refl)) as (e & He & Hpick).
  replace (existsb (fun e => OVERALL_PICK e =? api_OVERALL_PICK r) out) with true.
  - apply IH. intros r' Hr'. apply Hp. right. exact Hr'.
  - symmetry. apply existsb_exists. exists e. split; [exact He | apply Z.eqb_eq; exact Hpick].
Qed.

End Reconciliation.

(** C5 (code bug): the code's year test compares the API's text [SEASON]
    with the file's integer [SEASON] and never matches, so a fetched row is
    appended exactly when its pick is absent from the file, whatever its
    draft year. With a file holding 2024 picks 1 to 5 and a fetched 2024
    pick 6, the rule of the specification finds the draft year present and
    appends nothing, but the code appends the row. A file holding no row
    makes the function raise [KeyError]. *)
Theorem reconcile_appends_pick_of_known_year :
  (forall from_file r, is_new_draft_player from_file r
     = negb (existsb (fun e => OVERALL_PICK e =? api_OVERALL_PICK r) from_file))
  /\ spec_is_new_draft_player example_registry_2024 2024 6 = false
  /\ (exists out, add_missing_players_to_draft_history example_registry_2024
                    [mkApiDraftRow "Player F" "2024" 6] = Some out
                  /\ In (mkEntrant "Player F" None 2024 6) out)
  /\ (forall from_nba_api, add_missing_players_to_draft_history [] from_nba_api = None).
Proof.
  split; [apply is_new_draft_player_pick|]. split; [reflexivity|]. split; [|reflexivity].
  eexists. split; [vm_compute; reflexivity|]. vm_compute. tauto.
Qed.

(** C6: a second run with the same fetched rows, on the registry the first
    run saved, returns that registry unchanged. *)
Theorem reconcile_idempotent (from_file : list Entrant) (from_nba_api : list ApiDraftRow)
    (out : list Entrant)
    (Hrun : add_missing_players_to_draft_history from_file from_nba_api = Some out) :
  add_missing_players_to_draft_history out from_nba_api = Some out.
Proof.
  unfold add_missing_players_to_draft_history in Hrun.
  destruct from_file as [|e0 es]; [discriminate|].
  destruct (mapM new_draft_entrant _) as [nd|] eqn:Em; [|discriminate].
  injection Hrun as Hout. apply mapM_Some_1 in Em.
  assert (Hin : forall e, In e (e0 :: es ++ nd) -> In e out).
  { intros e He. rewrite <- Hout.
    eapply Permutation_in; [symmetry; exact (sort_draft_history_perm (e0 :: es ++ nd)) | exact He]. }
  assert (Hfilter : List.filter (is_new_draft_player out) from_nba_api = []).
  { apply no_new_when_picks_present. intros r Hr.
    destruct (is_new_draft_player (e0 :: es) r) eqn:Enew.
    - assert (Hf : In r (List.filter (is_new_draft_player (e0 :: es)) from_nba_api))
        by (apply filter_In; auto).
      destruct (forall2_in_l _ _ _ _ Em Hf) as (y & Hy & Hny).
      exists y. split; [apply Hin; right; apply in_or_app; right; exact Hy|].
      apply new_draft_entrant_spec in Hny. tauto.
    - rewrite is_new_draft_player_pick in Enew. apply negb_false_iff, existsb_exists in Enew
        as (e & He & Hpick). apply Z.eqb_eq in Hpick.
      exists e. split; [apply Hin; simpl; rewrite in_app_iff; simpl in He; tauto | exact Hpick]. }
  unfold add_missing_players_to_draft_history.
  destruct out as [|o os].
  - exfalso. exact (Hin e0 (or_introl eq_refl)).
  - rewrite Hfilter. simpl. rewrite app_nil_r. f_equal.
    change (sort_draft_history (o :: os) = o :: os). rewrite <- Hout.
    exact (sort_draft_history_id _ (sort_draft_history_sorted (e0 :: es ++ nd))).
Qed.

Lemma reconcile_idempotent_witness :
  let from_file := [mkEntrant "Player A" (Some 7) 2024 1] in
  let from_nba_api := [mkApiDraftRow "Player A" "2024" 1; mkApiDraftRow "Player B" "2024" 2] in
  let out := [mkEntrant "Player A" (Some 7) 2024 1; mkEntrant "Player B" None 2024 2] in
  add_missing_players_to_draft_history from_file from_nba_api = Some out
  /\ add_missing_players_to_draft_history out from_nba_api = Some out.
Proof.
  intros from_file from_nba_api out.
  assert (Hrun : add_missing_players_to_draft_history from_file from_nba_api = Some out)
    by (vm_compute; reflexivity).
  split; [exact Hrun|]. exact (reconcile_idempotent from_file from_nba_api out Hrun).
Defined.

(* ------------------------------------------------------------------ *)
(** ** The per-year update of the placement files *)
(* ------------------------------------------------------------------ *)

Section Scraping.

Variable fetch : Z -> profile_page.
Variable registry : list Entrant.

(** The loop over [pre ++ rest] runs [rest] only after [pre] ends normally. *)
Lemma scrape_years_app (pre rest : list Z) (st : scrape_state) :
  scrape_years fetch registry (pre ++ rest) st
  = match scrape_years fetch registry pre st with
    | LoopDone st1 => scrape_years fetch registry rest st1
    | o => o
    end.
Proof.
  induction pre as [|y pre IH] in st |- *; simpl; [reflexivity|].
  destruct (negb _); [reflexivity|].
  destruct (player_tables _ _ _ _) as [[|df dfs] log2]; [reflexivity|].
  apply IH.
Qed.

Lemma player_tables_no_table (draft_year : Z) (players : list (Entrant * Z))
    (log : list scrape_event) :
  (forall e id, In (e, id) players ->
     fetch id = NoRegularSeasonSection \/ fetch id = SectionWithoutTable) ->
  fst (player_tables fetch draft_year players log) = [].
Proof.
  induction players as [|[e id] players IH] in log |- *; intros Hp; simpl; [reflexivity|].
  destruct (Hp e id (or_introl eq_refl)) as [-> | ->];
    apply IH; intros e' id' Hin; apply (Hp e' id'); right; exact Hin.
Qed.

End Scraping.

(** C2 (code_bug evidence): with 2021 absent from the registry, the request
    [2021; 2020] stops at 2021 ([return]) and never writes the 2020 file,
    which the request [2020] alone writes. *)
Theorem scrape_missing_year_stops_later_years :
  scrape_career_paths example_table_page example_registry [2021; 2020] empty_scrape_state
  = inr (mkScrapeState ∅ [NoDataForDraftYear 2021])
  /\ scrape_career_paths example_table_page example_registry [2020] empty_scrape_state
  = inr (mkScrapeState {[2020 := [mkScrapedRow "Player A" 1 "20-21" "Bourg-en-Bresse" "FRA-1" 2020]]}
                        [UpdatingCareerPaths 1]).
Proof. split; reflexivity. Qed.

(** C10: when the loop reaches a draft year present in the registry and
    every selected player's page lacks the regular-season section or its
    table, [pd.concat([])] raises: the function ends in an exception with
    the files as they were before that year (no file written for it). *)
Theorem scrape_raises_when_no_tables (fetch : Z -> profile_page)
    (registry : list Entrant) (pre post : list Z) (draft_year : Z)
    (st st1 : scrape_state)
    (Hpre : scrape_years fetch registry pre st = LoopDone st1)
    (Hyear : In draft_year (map SEASON registry))
    (Hempty : forall e id, In (e, id) (players_to_update registry draft_year) ->
       fetch id = NoRegularSeasonSection \/ fetch id = SectionWithoutTable) :
  exists log,
    scrape_career_paths fetch registry (pre ++ draft_year :: post) st
    = inl (mkScrapeState (career_path_files st1) log).
Proof.
  unfold scrape_career_paths. rewrite scrape_years_app, Hpre. simpl.
  assert (Hin : existsb (fun e => SEASON e =? draft_year) registry = true).
  { apply existsb_exists. apply in_map_iff in Hyear as (e & He & Hin).
    exists e. split; [exact Hin | apply Z.eqb_eq; exact He]. }
  rewrite Hin. simpl.
  pose proof (player_tables_no_table fetch draft_year (players_to_update registry draft_year)
                (scrape_log st1 ++ [UpdatingCareerPaths (List.length (players_to_update registry draft_year))])
                Hempty) as Hnil.
  destruct (player_tables _ _ _ _) as [dfs log2]. simpl in Hnil. subst dfs.
  eexists. reflexivity.
Qed.

Lemma scrape_raises_when_no_tables_witness :
  scrape_years (fun _ => NoRegularSeasonSection) example_registry [] empty_scrape_state
    = LoopDone empty_scrape_state
  /\ In 2020 (map SEASON example_registry)
  /\ exists log,
       scrape_career_paths (fun _ => NoRegularSeasonSection) example_registry ([] ++ [2020])
         empty_scrape_state
       = inl (mkScrapeState (career_path_files empty_scrape_state) log).
Proof.
  split; [reflexivity|]. split; [simpl; left; reflexivity|].
  apply (scrape_raises_when_no_tables (fun _ => NoRegularSeasonSection) example_registry
           [] [] 2020 empty_scrape_state empty_scrape_state).
  - reflexivity.
  - simpl. left. reflexivity.
  - intros e id _. left. reflexivity.
Defined.

(* ------------------------------------------------------------------ *)
(** ** The country resolver *)
(* ------------------------------------------------------------------ *)

Lemma unique_in_order_subset (seen l : list string) x :
  In x (unique_in_order seen l) -> In x l.
Proof.
  induction l as [|y l IH] in seen |- *; simpl; [tauto|].
  case_decide; [intros H'; right; eapply IH; eauto|].
  intros [<-|H']; [left; reflexivity | right; eapply IH; eauto].
Qed.

Section CountryResolver.

Variables lookup_alpha_2 lookup_alpha_3 : string -> option Country.

(** What the loop over [countries_without_mapping] does: the frame is
    mapped row by row, changing only the country cells of rows whose prefix
    is handled; the mapping only gains keys, and only a prefix of the loop
    gets a new value, always with a code. *)
Lemma resolve_fold_spec (ks : list string)
    (st : list CareerPathRow * gmap string CountryMapping) :
  let st' := foldl (resolve_unmapped lookup_alpha_2 lookup_alpha_3) st ks in
  (exists h : CareerPathRow -> CareerPathRow,
     st'.1 = map h st.1
     /\ (forall r, exists a n, h r = set_country a n r)
     /\ (forall r, ~ In (League_Prefix r) ks -> h r = r))
  /\ (forall k, is_Some (st.2 !! k) -> is_Some (st'.2 !! k))
  /\ (forall k, ~ In k ks -> st'.2 !! k = st.2 !! k)
  /\ (forall k v, st'.2 !! k = Some v ->
        st.2 !! k = Some v
        \/ exists c, country_lookup lookup_alpha_2 lookup_alpha_3 k = Some c
                     /\ v = mkCountryMapping (Some (alpha_3 c)) (Some (name c))).
Proof.
  induction ks as [|k ks IH] in st |- *; simpl.
  - split; [exists (fun r => r); split; [symmetry; apply list_fmap_id|] |].
    + split; [|tauto]. intros r. exists (Country_Alpha3 r), (Country_Name r).
      destruct r; reflexivity.
    + split; [tauto|]. split; [tauto|]. intros; left; assumption.
  - destruct st as [rows mp].
    destruct (IH (resolve_unmapped lookup_alpha_2 lookup_alpha_3 (rows, mp) k))
      as [(h & Hrows & Hset & Hid) (Hdom & Hkeep & Hnew)].
    unfold resolve_unmapped in *.
    destruct (country_lookup lookup_alpha_2 lookup_alpha_3 k) as [c|] eqn:Ec; simpl in *.
    + split; [|split; [|split]].
      * exists (fun r => h (if decide (League_Prefix r = k)
                            then set_country (Some (alpha_3 c)) (Some (name c)) r else r)).
        split; [rewrite Hrows, map_map; reflexivity|]. split.
        -- intros r. case_decide.
           ++ destruct (Hset (set_country (Some (alpha_3 c)) (Some (name c)) r)) as (a & n & ->).
              exists a, n. reflexivity.
           ++ apply Hset.
        -- intros r Hr. case_decide; [exfalso; apply Hr; left; congruence|]. apply Hid. tauto.
      * intros k' Hk'. apply Hdom. rewrite lookup_insert.
        case_decide; [eexists; reflexivity | exact Hk'].
      * intros k' Hk'. rewrite Hkeep by tauto. rewrite lookup_insert_ne; [reflexivity|].
        intros ->. tauto.
      * intros k' v Hv. destruct (Hnew k' v Hv) as [Hv'|Hv']; [|right; exact Hv'].
        rewrite lookup_insert in Hv'. case_decide as Hkk.
        -- right. injection Hv' as <-. subst k'. exists c. auto.
        -- left. exact Hv'.
    + split; [|split; [|split]].
      * exists h. split; [exact Hrows|]. split; [exact Hset|].
        intros r Hr. apply Hid. tauto.
      * exact Hdom.
      * intros k' Hk'. apply Hkeep. tauto.
      * exact Hnew.
Qed.

End CountryResolver.

(** C8 (counterexample): a cached prefix whose [ALPHA-3] is [null] counts
    as unmapped, and a successful lookup overwrites its entry. *)
Lemma map_countries_overwrites_null_entry :
  example_country_cache !! "FR" = Some (mkCountryMapping None None)
  /\ (map_countries_to_alpha3 example_lookup_alpha_2 (fun _ => None)
        example_fr_rows example_country_cache).2 !! "FR"
     = Some (mkCountryMapping (Some "FRA") (Some "France")).
Proof. split; reflexivity. Qed.

(** C8 (as amended): the mapping only gains keys; an entry with a non-null
    alpha-3 code is kept as it is and every row with its prefix gets its
    code and name; any other value the mapping ends with was written by a
    successful lookup of its prefix and holds the found country's alpha-3
    code and name. *)
Theorem map_countries_monotonic (lookup_alpha_2 lookup_alpha_3 : string -> option Country)
    (rows : list CareerPathRow) (country_mappings : gmap string CountryMapping) :
  let res := map_countries_to_alpha3 lookup_alpha_2 lookup_alpha_3 rows country_mappings in
  (forall k, is_Some (country_mappings !! k) -> is_Some (res.2 !! k))
  /\ (forall k v, country_mappings !! k = Some v -> is_Some (ALPHA_3 v) ->
        res.2 !! k = Some v
        /\ forall r, In r res.1 -> League_Prefix r = k ->
             Country_Alpha3 r = ALPHA_3 v /\ Country_Name r = NAME v)
  /\ (forall k v, res.2 !! k = Some v ->
        country_mappings !! k = Some v
        \/ exists c, country_lookup lookup_alpha_2 lookup_alpha_3 k = Some c
                     /\ v = mkCountryMapping (Some (alpha_3 c)) (Some (name c))).
Proof.
  intros res. unfold res, map_countries_to_alpha3.
  set (rows0 := map (initial_country country_mappings) rows).
  destruct (resolve_fold_spec lookup_alpha_2 lookup_alpha_3 (countries_without_mapping rows0)
              (rows0, country_mappings)) as [(h & Hrows & Hset & Hid) (Hdom & Hkeep & Hnew)].
  simpl in *.
  assert (Hnot : forall k v, country_mappings !! k = Some v -> is_Some (ALPHA_3 v) ->
                   ~ In k (countries_without_mapping rows0)).
  { intros k v Hk [a Ha] Hin. unfold countries_without_mapping in Hin.
    apply unique_in_order_subset, in_map_iff in Hin as (r & Hrk & Hr).
    apply filter_In in Hr as [Hr Hnone]. apply bool_decide_eq_true in Hnone.
    unfold rows0 in Hr. apply in_map_iff in Hr as (r0 & Hr0 & _). subst r.
    unfold initial_country, set_country in Hnone, Hrk. cbn in Hnone, Hrk.
    rewrite Hrk, Hk in Hnone. cbn in Hnone. congruence. }
  split; [exact Hdom|]. split; [|exact Hnew].
  intros k v Hk Ha. split; [rewrite Hkeep; [exact Hk | eapply Hnot; eauto]|].
  intros r Hr Hpre. rewrite Hrows in Hr. apply in_map_iff in Hr as (r0 & <- & Hr0).
  unfold rows0 in Hr0. apply in_map_iff in Hr0 as (r1 & <- & _).
  assert (Hp1 : League_Prefix r1 = k).
  { destruct (Hset (initial_country country_mappings r1)) as (a & n & Eh).
    rewrite Eh in Hpre. exact Hpre. }
  rewrite Hid.
  - unfold initial_country, set_country. cbn. rewrite Hp1, Hk. auto.
  - unfold initial_country, set_country. cbn. rewrite Hp1. eapply Hnot; eauto.
Qed.

(* ------------------------------------------------------------------ *)
(** ** The aggregation *)
(* ------------------------------------------------------------------ *)

Section DropDuplicates.

Lemma drop_duplicates_aux_in (seen l : list CareerPathRow) x :
  In x (drop_duplicates_aux seen l) <-> In x l /\ ~ In x seen.
Proof.
  induction l as [|r l IH] in seen |- *; simpl; [tauto|].
  case_decide as Hr; rewrite list_elem_of_In in Hr.
  - rewrite IH. split; [tauto|]. intros [[<-|Hx] Hs]; [contradiction | tauto].
  - simpl. rewrite IH. simpl. split.
    + intros [<-|[Hx Hs]]; [tauto|]. split; [tauto|]. tauto.
    + intros [[<-|Hx] Hs]; [left; reflexivity|].
      destruct (decide (r = x)) as [->|Hne]; [left; reflexivity|].
      right. split; [exact Hx|]. intros [->|Hs']; [apply Hne; reflexivity | tauto].
Qed.

Lemma drop_duplicates_aux_nodup (seen l : list CareerPathRow) :
  NoDup (drop_duplicates_aux seen l).
Proof.
  induction l as [|r l IH] in seen |- *; simpl; [constructor|].
  case_decide; [apply IH|].
  constructor; [|apply IH].
  rewrite list_elem_of_In, drop_duplicates_aux_in. simpl. tauto.
Qed.

Lemma drop_duplicates_in (l : list CareerPathRow) x :
  In x (drop_duplicates l) <-> In x l.
Proof. unfold drop_duplicates. rewrite drop_duplicates_aux_in. simpl. tauto. Qed.

Lemma drop_duplicates_nodup (l : list CareerPathRow) : NoDup (drop_duplicates l).
Proof. apply drop_duplicates_aux_nodup. Qed.

(** In a duplicate-free list, the elements equal to one row are at most one. *)
Lemma nodup_all_equal_length (k : list CareerPathRow) y :
  NoDup k -> (forall x, In x k -> x = y) -> (List.length k <= 1)%nat.
Proof.
  intros Hnd Hall. destruct k as [|a [|b k]]; simpl; [lia | lia|].
  exfalso. inversion Hnd as [|? ? Hnin _]; subst.
  apply Hnin. apply list_elem_of_In. left. rewrite (Hall a), (Hall b); simpl; auto.
Qed.

End DropDuplicates.

Lemma set_country_twice a n a' n' r :
  set_country a' n' (set_country a n r) = set_country a' n' r.
Proof. destruct r; reflexivity. Qed.

(** The resolver maps the frame row by row, touching only country cells. *)
Lemma map_countries_rows (lookup_alpha_2 lookup_alpha_3 : string -> option Country)
    (rows : list CareerPathRow) (country_mappings : gmap string CountryMapping) :
  exists g, (map_countries_to_alpha3 lookup_alpha_2 lookup_alpha_3 rows country_mappings).1
            = map g rows
         /\ forall r, exists a n, g r = set_country a n r.
Proof.
  unfold map_countries_to_alpha3.
  set (rows0 := map (initial_country country_mappings) rows).
  destruct (resolve_fold_spec lookup_alpha_2 lookup_alpha_3 (countries_without_mapping rows0)
              (rows0, country_mappings)) as [(h & Hrows & Hset & _) _].
  exists (fun r => h (initial_country country_mappings r)). split.
  - rewrite Hrows. simpl. unfold rows0. rewrite map_map. reflexivity.
  - intros r. destruct (Hset (initial_country country_mappings r)) as (a & n & ->).
    exists a, n. unfold initial_country. apply set_country_twice.
Qed.

Lemma merge_draft_history_placement (registry : list Entrant) r r' :
  In r' (merge_draft_history registry r) -> placement r' = placement r.
Proof.
  unfold merge_draft_history.
  destruct (registry_matches registry (Proballers_ID (placement r))) as [|e es].
  - intros [<-|[]]. reflexivity.
  - intros Hin. apply in_map_iff in Hin as (e' & <- & _). reflexivity.
Qed.

Lemma with_years_from_draft_spec (current_year : Z) r r' :
  with_years_from_draft current_year r = Some r' ->
  placement r' = placement r
  /\ years_from_draft_cell current_year (Season (placement r)) (Draft_Year r)
     = Some (Years_From_Draft r').
Proof.
  unfold with_years_from_draft.
  destruct (years_from_draft_cell _ _ _) as [y|]; simpl; [|discriminate].
  intros [= <-]. auto.
Qed.

Lemma nodup_list_filter (P : CareerPathRow -> bool) (l : list CareerPathRow) :
  NoDup l -> NoDup (List.filter P l).
Proof.
  induction 1 as [|x l Hx Hnd IH]; simpl; [constructor|].
  destruct (P x); [|exact IH]. constructor; [|exact IH].
  rewrite list_elem_of_In, filter_In. rewrite list_elem_of_In in Hx. tauto.
Qed.

(** C7 (counterexample): two identical rows whose years from draft are -18
    are both removed by the outlier filter; no row derived from them is left. *)
Lemma aggregate_duplicates_filtered_out :
  create_dataframe_of_career_paths 2026 (fun _ => None) (fun _ => None)
    [[example_placement; example_placement]] example_draft_registry ∅
  = (∅, Some [])
  /\ rows_derived_from example_placement [] = [].
Proof. split; reflexivity. Qed.

(** C7 (as amended): when a placement row [p] appears at least twice in
    the input and at most one registry row carries its identifier, the output
    keeps at most one row derived from [p]: exactly one when its years from
    draft lie in (-10, 30], none otherwise, and none when no registry row
    matches (the years from draft are then NaN). *)
Theorem aggregate_keeps_one_row_per_duplicate (current_year : Z)
    (lookup_alpha_2 lookup_alpha_3 : string -> option Country)
    (files : list (list PlacementRow)) (registry : list Entrant)
    (country_mappings mappings' : gmap string CountryMapping)
    (out : list CareerPathRow) (p : PlacementRow)
    (Hrun : create_dataframe_of_career_paths current_year lookup_alpha_2 lookup_alpha_3
              files registry country_mappings = (mappings', Some out))
    (Htwo : (2 <= List.length (List.filter (fun q => bool_decide (q = p)) (concat files)))%nat)
    (Hreg : (List.length (registry_matches registry (Proballers_ID p)) <= 1)%nat) :
  (List.length (rows_derived_from p out) <= 1)%nat
  /\ (forall e y, registry_matches registry (Proballers_ID p) = [e] ->
        years_from_draft_cell current_year (Season p) (Some (SEASON e)) = Some (Some y) ->
        List.length (rows_derived_from p out) = if (-10 <? y) && (y <=? 30) then 1%nat else 0%nat)
  /\ (registry_matches registry (Proballers_ID p) = [] -> rows_derived_from p out = []).
Proof.
  unfold create_dataframe_of_career_paths in Hrun.
  destruct files as [|f fs]; [discriminate|].
  destruct (map_countries_rows lookup_alpha_2 lookup_alpha_3
              (map with_league_prefix (concat (f :: fs))) country_mappings) as (g & Hg & Hgset).
  destruct (map_countries_to_alpha3 _ _ _ _) as [rows1 m1]. simpl in Hg. subst rows1.
  destruct (mapM _ _) as [rows3|] eqn:Em; [|discriminate].
  injection Hrun as _ <-. apply mapM_Some_1 in Em.
  set (rp := g (with_league_prefix p)).
  assert (Hpin : In p (concat (f :: fs))).
  { destruct (List.filter _ (concat (f :: fs))) as [|q qs] eqn:Ef; simpl in Htwo; [lia|].
    assert (Hq : In q (List.filter (fun q => bool_decide (q = p)) (concat (f :: fs))))
      by (rewrite Ef; left; reflexivity).
    apply filter_In in Hq as [Hq Heq]. apply bool_decide_eq_true in Heq. subst q. exact Hq. }
  assert (Hrp : placement rp = p /\ Draft_Year rp = None).
  { unfold rp. destruct (Hgset (with_league_prefix p)) as (a & n & ->). auto. }
  destruct Hrp as [Hrp_pl Hrp_dy].
  assert (HA : forall r3, In r3 rows3 -> placement r3 = p ->
             exists r2, In r2 (merge_draft_history registry rp)
                        /\ with_years_from_draft current_year r2 = Some r3).
  { intros r3 Hr3 Hpl. destruct (forall2_in_r _ _ _ _ Em Hr3) as (r2 & Hr2 & Hy).
    pose proof (with_years_from_draft_spec _ _ _ Hy) as [Hpl2 _].
    apply in_concat in Hr2 as (ms & Hms & Hr2). apply in_map_iff in Hms as (r1 & <- & Hr1).
    apply in_map_iff in Hr1 as (q0 & <- & Hq0). apply in_map_iff in Hq0 as (q & <- & Hq).
    pose proof (merge_draft_history_placement _ _ _ Hr2) as Hpl1.
    destruct (Hgset (with_league_prefix q)) as (a & n & Eg).
    rewrite Eg in Hpl1. simpl in Hpl1.
    assert (Hqp : q = p) by congruence. rewrite Hqp in Hr2. exists r2. split; [exact Hr2 | exact Hy]. }
  assert (HB : forall r2, In r2 (merge_draft_history registry rp) ->
             exists r3, In r3 rows3 /\ with_years_from_draft current_year r2 = Some r3).
  { intros r2 Hr2. apply (forall2_in_l _ _ _ _ Em). apply in_concat.
    exists (merge_draft_history registry rp). split; [|exact Hr2].
    apply in_map. apply in_map. apply in_map. exact Hpin. }
  assert (Hout : forall r, In r (rows_derived_from p (drop_duplicates (List.filter keep_row rows3)))
                   <-> In r rows3 /\ keep_row r = true /\ placement r = p).
  { intros r. unfold rows_derived_from. rewrite filter_In, drop_duplicates_in, filter_In.
    rewrite bool_decide_eq_true. tauto. }
  assert (Hnd : NoDup (rows_derived_from p (drop_duplicates (List.filter keep_row rows3))))
    by (apply nodup_list_filter, drop_duplicates_nodup).
  assert (Hmerge : merge_draft_history registry rp
                   = match registry_matches registry (Proballers_ID p) with
                     | [] => [rp]
                     | ms => map (fun e => set_draft (Some (SEASON e)) (Some (OVERALL_PICK e)) rp) ms
                     end).
  { unfold merge_draft_history. rewrite Hrp_pl. reflexivity. }
  destruct (registry_matches registry (Proballers_ID p)) as [|e [|e2 es]] eqn:Ereg.
  - (* no registry row: the years from draft are NaN and the row is dropped *)
    assert (Hnone : rows_derived_from p (drop_duplicates (List.filter keep_row rows3)) = []).
    { destruct (rows_derived_from p _) as [|r rs] eqn:Er; [reflexivity|].
      exfalso. assert (Hr : In r (r :: rs)) by (left; reflexivity).
      apply Hout in Hr. destruct Hr as (Hr3 & Hkeep & Hpl).
      destruct (HA r Hr3 Hpl) as (r2 & Hr2 & Hy). rewrite Hmerge in Hr2.
      destruct Hr2 as [<-|[]].
      apply with_years_from_draft_spec in Hy as [_ Hcell].
      rewrite Hrp_dy in Hcell. unfold years_from_draft_cell in Hcell.
      destruct (py_int _); simpl in Hcell; [|discriminate].
      injection Hcell as Hyr. unfold keep_row in Hkeep. rewrite <- Hyr in Hkeep. discriminate. }
    rewrite Hnone. split; [simpl; lia|]. split; [intros ? ? Hc; discriminate | reflexivity].
  - (* one registry row *)
    set (m := set_draft (Some (SEASON e)) (Some (OVERALL_PICK e)) rp) in Hmerge.
    destruct (HB m) as (r3m & Hr3m & Hym); [rewrite Hmerge; left; reflexivity|].
    assert (Hall : forall r, In r (rows_derived_from p (drop_duplicates (List.filter keep_row rows3)))
                     -> r = r3m).
    { intros r Hr. apply Hout in Hr as (Hr3 & _ & Hpl).
      destruct (HA r Hr3 Hpl) as (r2 & Hr2 & Hy). rewrite Hmerge in Hr2.
      destruct Hr2 as [<-|[]]. unfold m in Hym. congruence. }
    pose proof (nodup_all_equal_length _ _ Hnd Hall) as Hle.
    split; [exact Hle|]. split; [|discriminate].
    intros e' y [= <-] Hcell.
    pose proof (with_years_from_draft_spec _ _ _ Hym) as [Hpl3 Hcell3].
    unfold m, set_draft in Hpl3, Hcell3. cbn [placement Draft_Year] in Hpl3, Hcell3.
    rewrite Hrp_pl in Hpl3, Hcell3.
    rewrite Hcell in Hcell3. injection Hcell3 as Hy3.
    assert (Hk : keep_row r3m = (-10 <? y) && (y <=? 30)) by (unfold keep_row; rewrite <- Hy3; reflexivity).
    destruct ((-10 <? y) && (y <=? 30)) eqn:Ew.
    + assert (Hin : In r3m (rows_derived_from p (drop_duplicates (List.filter keep_row rows3))))
        by (apply Hout; auto).
      destruct (rows_derived_from p _) as [|a l]; [destruct Hin|]. simpl in Hle |- *. lia.
    + destruct (rows_derived_from p _) as [|a l] eqn:Er; [reflexivity|].
      exfalso. assert (Ha : In a (a :: l)) by (left; reflexivity).
      pose proof (Hall a Ha) as ->.
      apply Hout in Ha as (_ & Hka & _). congruence.
  - simpl in Hreg. lia.
Qed.

Lemma aggregate_keeps_one_row_per_duplicate_witness :
  let p := mkPlacementRow "Player A" 1 "23-24" "Le Mans" "FRA-1" in
  let reg := [mkEntrant "Player A" (Some 1) 2020 1] in
  let row := mkCareerPathRow p "FRA" None None (Some 2020) (Some 1) (Some 3) in
  create_dataframe_of_career_paths 2026 (fun _ => None) (fun _ => None) [[p; p]] reg ∅
    = (∅, Some [row])
  /\ (2 <= List.length (List.filter (fun q => bool_decide (q = p)) (concat [[p; p]])))%nat
  /\ (List.length (registry_matches reg (Proballers_ID p)) <= 1)%nat
  /\ (List.length (rows_derived_from p [row]) <= 1)%nat.
Proof.
  intros p reg row.
  assert (Hrun : create_dataframe_of_career_paths 2026 (fun _ => None) (fun _ => None)
                   [[p; p]] reg ∅ = (∅, Some [row])) by reflexivity.
  assert (H2 : (2 <= List.length (List.filter (fun q => bool_decide (q = p)) (concat [[p; p]])))%nat)
    by (vm_compute; lia).
  assert (H1 : (List.length (registry_matches reg (Proballers_ID p)) <= 1)%nat)
    by (vm_compute; lia).
  split; [exact Hrun|]. split; [exact H2|]. split; [exact H1|].
  exact (proj1 (aggregate_keeps_one_row_per_duplicate 2026 (fun _ => None) (fun _ => None)
                  [[p; p]] reg ∅ ∅ [row] p Hrun H2 H1)).
Defined.

(* ================================================================== *)
(** * Further properties of the code *)
(* ================================================================== *)

(* ------------------------------------------------------------------ *)
(** ** The century heuristic *)
(* ------------------------------------------------------------------ *)

(** The result of the function is an offset of one of the three candidates. *)
Lemma calculate_result_cases (current_year : Z) (season : string) (draft_year start_yy : Z)
    (log : list console_event) (d : Z) :
  py_int (split_dash_first season) = Some start_yy ->
  calculate_years_since_draft current_year season draft_year = Some (log, d) ->
  let cc := current_year - current_year mod 100 in
  (log = [] /\ exists o, In o century_offsets
                         /\ century_candidate_ok cc start_yy draft_year o = true
                         /\ d = cc + o + start_yy - draft_year)
  \/ (log = [PossibleIncorrectData season draft_year] /\ d = cc + start_yy - draft_year
      /\ forall o, In o century_offsets -> century_candidate_ok cc start_yy draft_year o = false).
Proof.
  intros Hp Hr cc. unfold calculate_years_since_draft, calculate_years_in_order in Hr.
  rewrite Hp in Hr. fold cc in Hr.
  destruct (try_century_offsets cc start_yy draft_year century_offsets) as [d'|] eqn:E;
    injection Hr as <- <-.
  - left. split; [reflexivity|]. apply try_century_offsets_some in E as (o & ? & ? & ?). eauto.
  - right. split; [reflexivity|]. split; [reflexivity|].
    apply try_century_offsets_none. exact E.
Qed.

(** X1: a result returned without the data-quality warning is less than 30
    years from the draft in absolute value; a result with the warning
    comes from the current century and every candidate is at least 30
    years away. *)
Theorem calculate_warning_iff_no_candidate (current_year : Z) (season : string)
    (draft_year start_yy : Z) (log : list console_event) (d : Z)
    (Hparse : py_int (split_dash_first season) = Some start_yy)
    (Hres : calculate_years_since_draft current_year season draft_year = Some (log, d)) :
  (log = [] /\ Z.abs d < 30)
  \/ (log = [PossibleIncorrectData season draft_year]
      /\ d = current_year - current_year mod 100 + start_yy - draft_year
      /\ forall o, In o century_offsets ->
           30 <= Z.abs (current_year - current_year mod 100 + o + start_yy - draft_year)).
Proof.
  destruct (calculate_result_cases _ _ _ _ _ _ Hparse Hres)
    as [(-> & o & _ & Hok & ->) | (-> & -> & Hall)].
  - left. split; [reflexivity|]. apply century_candidate_ok_iff in Hok. exact Hok.
  - right. split; [reflexivity|]. split; [reflexivity|].
    intros o Ho. specialize (Hall o Ho).
    destruct (Z_lt_le_dec (Z.abs (current_year - current_year mod 100 + o + start_yy - draft_year)) 30)
      as [Hlt|]; [|assumption].
    apply century_candidate_ok_iff in Hlt. congruence.
Qed.

Lemma calculate_warning_iff_no_candidate_witness :
  py_int (split_dash_first "50-51") = Some 50
  /\ calculate_years_since_draft 2026 "50-51" 2003 = Some ([PossibleIncorrectData "50-51" 2003], 47)
  /\ (([PossibleIncorrectData "50-51" 2003] = [] /\ Z.abs 47 < 30)
      \/ ([PossibleIncorrectData "50-51" 2003] = [PossibleIncorrectData "50-51" 2003]
          /\ 47 = 2026 - 2026 mod 100 + 50 - 2003
          /\ forall o, In o century_offsets -> 30 <= Z.abs (2026 - 2026 mod 100 + o + 50 - 2003))).
Proof.
  assert (Hp : py_int (split_dash_first "50-51") = Some 50) by reflexivity.
  assert (Hr : calculate_years_since_draft 2026 "50-51" 2003
               = Some ([PossibleIncorrectData "50-51" 2003], 47)) by reflexivity.
  split; [exact Hp|]. split; [exact Hr|].
  exact (calculate_warning_iff_no_candidate 2026 "50-51" 2003 50 _ 47 Hp Hr).
Defined.

(** X2: the year the function settles on, [draft_year + result], is one of
    the three candidates and always ends in the label's two digits. *)
Theorem calculate_year_matches_label (current_year : Z) (season : string)
    (draft_year start_yy : Z) (log : list console_event) (d : Z)
    (Hparse : py_int (split_dash_first season) = Some start_yy)
    (Hres : calculate_years_since_draft current_year season draft_year = Some (log, d)) :
  (exists o, In o century_offsets
             /\ d + draft_year = current_year - current_year mod 100 + o + start_yy)
  /\ (d + draft_year) mod 100 = start_yy mod 100.
Proof.
  assert (Hex : exists o, In o century_offsets
                  /\ d + draft_year = current_year - current_year mod 100 + o + start_yy).
  { destruct (calculate_result_cases _ _ _ _ _ _ Hparse Hres)
      as [(_ & o & Ho & _ & ->) | (_ & -> & _)].
    - exists o. split; [exact Ho | lia].
    - exists 0. split; [simpl; auto | lia]. }
  split; [exact Hex|].
  destruct Hex as (o & Ho & ->).
  assert (Hc : current_year - current_year mod 100 = 100 * (current_year / 100))
    by (pose proof (Z.div_mod current_year 100); lia).
  rewrite Hc.
  unfold century_offsets in Ho; simpl in Ho.
  destruct Ho as [<-|[<-|[<-|[]]]].
  - replace (100 * (current_year / 100) + -100 + start_yy)
      with (start_yy + (current_year / 100 - 1) * 100) by lia.
    apply Z_mod_plus_full.
  - replace (100 * (current_year / 100) + 0 + start_yy)
      with (start_yy + (current_year / 100) * 100) by lia.
    apply Z_mod_plus_full.
  - replace (100 * (current_year / 100) + 100 + start_yy)
      with (start_yy + (current_year / 100 + 1) * 100) by lia.
    apply Z_mod_plus_full.
Qed.

Lemma calculate_year_matches_label_witness :
  py_int (split_dash_first "99-00") = Some 99
  /\ calculate_years_since_draft 2026 "99-00" 1998 = Some ([], 1)
  /\ (1 + 1998) mod 100 = 99 mod 100.
Proof.
  assert (Hp : py_int (split_dash_first "99-00") = Some 99) by reflexivity.
  assert (Hr : calculate_years_since_draft 2026 "99-00" 1998 = Some ([], 1)) by reflexivity.
  split; [exact Hp|]. split; [exact Hr|].
  exact (proj2 (calculate_year_matches_label 2026 "99-00" 1998 99 [] 1 Hp Hr)).
Defined.

Lemma digit_value_facts (c : Ascii.ascii) (n : Z) :
  digit_value c = Some n ->
  0 <= n <= 9 /\ is_py_space c = false /\ Ascii.eqb c "-"%char = false
  /\ Ascii.eqb c "+"%char = false.
Proof.
  unfold digit_value.
  destruct ((48 <=? Ascii.nat_of_ascii c)%nat && (Ascii.nat_of_ascii c <=? 57)%nat) eqn:E;
    [|discriminate].
  intros [= <-]. apply andb_true_iff in E as [E1 E2].
  apply Nat.leb_le in E1. apply Nat.leb_le in E2.
  assert (Hne : forall d, (Ascii.nat_of_ascii d < 48 \/ 57 < Ascii.nat_of_ascii d)%nat ->
                  Ascii.eqb c d = false).
  { intros d Hd. destruct (Ascii.eqb_spec c d) as [->|]; [lia | reflexivity]. }
  split; [lia|]. split.
  - unfold is_py_space. apply orb_false_iff. split.
    + apply Nat.eqb_neq. lia.
    + apply andb_false_iff. right. apply Nat.leb_gt. lia.
  - split; apply Hne; vm_compute; lia.
Qed.

(** X4: a label that starts with two ASCII digits and a ['-'] always
    parses: its start year is the two-digit number (0 to 99) and the
    function returns a result, never the [ValueError] of [int]. *)
Theorem calculate_two_digit_label (current_year draft_year : Z)
    (c1 c2 : Ascii.ascii) (rest : string) (n1 n2 : Z)
    (H1 : digit_value c1 = Some n1) (H2 : digit_value c2 = Some n2) :
  let season := String c1 (String c2 (String "-"%char rest)) in
  py_int (split_dash_first season) = Some (10 * n1 + n2)
  /\ 0 <= 10 * n1 + n2 <= 99
  /\ exists res, calculate_years_since_draft current_year season draft_year = Some res.
Proof.
  intros season.
  destruct (digit_value_facts _ _ H1) as (B1 & S1 & D1 & P1).
  destruct (digit_value_facts _ _ H2) as (B2 & S2 & D2 & P2).
  assert (Hp : py_int (split_dash_first season) = Some (10 * n1 + n2)).
  { unfold season, split_dash_first, py_int. simpl.
    unfold ascii_dash. rewrite D1, D2. simpl.
    unfold strip_l. simpl. rewrite S1. simpl. rewrite S2. simpl.
    rewrite P1, D1, H1. simpl. rewrite H2. f_equal. lia. }
  split; [exact Hp|]. split; [lia|].
  unfold calculate_years_since_draft, calculate_years_in_order. rewrite Hp.
  destruct (try_century_offsets _ _ _ _); eexists; reflexivity.
Qed.

Lemma calculate_two_digit_label_witness :
  digit_value "0"%char = Some 0 /\ digit_value "5"%char = Some 5
  /\ py_int (split_dash_first "05-06") = Some (10 * 0 + 5).
Proof.
  assert (H1 : digit_value "0"%char = Some 0) by reflexivity.
  assert (H2 : digit_value "5"%char = Some 5) by reflexivity.
  split; [exact H1|]. split; [exact H2|].
  exact (proj1 (calculate_two_digit_label 2026 2023 "0"%char "5"%char "06" 0 5 H1 H2)).
Defined.

(* ------------------------------------------------------------------ *)
(** ** The registry *)
(* ------------------------------------------------------------------ *)

(** X7: the first build on a non-empty fetch saves one row per fetched
    row, each with a null [PROBALLERS_ID]; a reconciliation against the
    same fetched rows then appends nothing and only sorts the registry.
    On an empty fetch the first build saves [[]], and every later
    reconciliation on that file raises [KeyError]. *)
Theorem download_then_reconcile_adds_nothing (from_nba_api : list ApiDraftRow)
    (registry : list Entrant)
    (Hne : from_nba_api <> [])
    (Hdl : download_draft_history from_nba_api = Some registry) :
  List.length registry = List.length from_nba_api
  /\ (forall e, In e registry -> PROBALLERS_ID e = None)
  /\ add_missing_players_to_draft_history registry from_nba_api
     = Some (sort_draft_history registry)
  /\ download_draft_history [] = Some []
  /\ (forall rs, add_missing_players_to_draft_history [] rs = None).
Proof.
  unfold download_draft_history in Hdl. apply mapM_Some_1 in Hdl.
  assert (Hlen : List.length registry = List.length from_nba_api)
    by (symmetry; exact (Forall2_length _ _ _ Hdl)).
  split; [exact Hlen|]. split; [|split; [|split; reflexivity]].
  - intros e He. destruct (forall2_in_r _ _ _ _ Hdl He) as (r & _ & Hr).
    apply new_draft_entrant_spec in Hr. tauto.
  - assert (Hfilter : List.filter (is_new_draft_player registry) from_nba_api = []).
    { apply no_new_when_picks_present. intros r Hr.
      destruct (forall2_in_l _ _ _ _ Hdl Hr) as (e & He & Hre).
      exists e. split; [exact He|]. apply new_draft_entrant_spec in Hre. tauto. }
    unfold add_missing_players_to_draft_history.
    destruct registry as [|e0 es].
    + destruct from_nba_api; [contradiction | discriminate].
    + rewrite Hfilter. simpl. rewrite app_nil_r. reflexivity.
Qed.

Lemma download_then_reconcile_adds_nothing_witness :
  let rows := [mkApiDraftRow "Player B" "2024" 2; mkApiDraftRow "Player A" "2024" 1] in
  let registry := [mkEntrant "Player B" None 2024 2; mkEntrant "Player A" None 2024 1] in
  rows <> [] /\ download_draft_history rows = Some registry
  /\ add_missing_players_to_draft_history registry rows
     = Some [mkEntrant "Player A" None 2024 1; mkEntrant "Player B" None 2024 2].
Proof.
  intros rows registry.
  assert (Hne : rows <> []) by discriminate.
  assert (Hdl : download_draft_history rows = Some registry) by (vm_compute; reflexivity).
  split; [exact Hne|]. split; [exact Hdl|].
  rewrite (proj1 (proj2 (proj2 (download_then_reconcile_adds_nothing rows registry Hne Hdl)))).
  reflexivity.
Defined.

Lemma list_nodup_map_filter {A B} (f : A -> B) (P : A -> bool) (l : list A) :
  List.NoDup (map f l) -> List.NoDup (map f (List.filter P l)).
Proof.
  induction l as [|x l IH]; simpl; intros Hnd; [constructor|].
  inversion Hnd as [|? ? Hx Hnd']; subst.
  destruct (P x); simpl; [|auto].
  constructor; [|auto]. intros Hin. apply Hx.
  apply in_map_iff in Hin as (y & Hy & Hin). apply filter_In in Hin as [Hin _].
  rewrite <- Hy. apply in_map. exact Hin.
Qed.

(* ------------------------------------------------------------------ *)
(** ** The per-year update *)
(* ------------------------------------------------------------------ *)

Lemma players_to_update_in (registry : list Entrant) (draft_year : Z) e id :
  In (e, id) (players_to_update registry draft_year) ->
  In e registry /\ SEASON e = draft_year /\ PROBALLERS_ID e = Some id.
Proof.
  unfold players_to_update. induction registry as [|e' reg IH]; simpl; [tauto|].
  destruct (PROBALLERS_ID e') as [id'|] eqn:Eid; [|intros H; destruct (IH H) as (? & ? & ?); auto].
  destruct (SEASON e' =? draft_year) eqn:Es.
  - intros [[= <- <-]|H]; [apply Z.eqb_eq in Es; auto|].
    destruct (IH H) as (? & ? & ?); auto.
  - intros H; destruct (IH H) as (? & ? & ?); auto.
Qed.

Lemma player_tables_rows (fetch : Z -> profile_page) (draft_year : Z)
    (players : list (Entrant * Z)) (log : list scrape_event) df r :
  In df (player_tables fetch draft_year players log).1 -> In r df ->
  exists e id, In (e, id) players /\ sr_Draft_Year r = draft_year
               /\ sr_Proballers_ID r = id /\ sr_Player_Name r = PLAYER_NAME e.
Proof.
  induction players as [|[e id] players IH] in log |- *; simpl; [tauto|].
  destruct (fetch id) as [| |rows].
  - intros Hdf Hr. destruct (IH _ Hdf Hr) as (e' & id' & ? & ?). exists e', id'. auto.
  - intros Hdf Hr. destruct (IH _ Hdf Hr) as (e' & id' & ? & ?). exists e', id'. auto.
  - destruct (player_tables fetch draft_year players log) as [dfs log'] eqn:Ep. simpl.
    intros [<-|Hdf] Hr.
    + apply in_map_iff in Hr as ([[season team] league] & <- & _).
      exists e, id. simpl. auto.
    + assert (Hdf' : In df (player_tables fetch draft_year players log).1) by (rewrite Ep; exact Hdf).
      destruct (IH _ Hdf' Hr) as (e' & id' & ? & ?). exists e', id'. auto.
Qed.

Section ScrapeInvariants.

Variable fetch : Z -> profile_page.
Variable registry : list Entrant.

Lemma scrape_years_spec (years : list Z) (st : scrape_state) :
  let st' := outcome_state (scrape_years fetch registry years st) in
  (forall y, ~ In y years -> career_path_files st' !! y = career_path_files st !! y)
  /\ (forall y rows, career_path_files st' !! y = Some rows ->
        career_path_files st !! y = Some rows
        \/ forall r, In r rows -> row_from_registry registry y r)
  /\ ((forall y, In y years -> In y (map SEASON registry)) ->
      forall st1, scrape_years fetch registry years st = LoopDone st1 ->
      forall y, In y years -> is_Some (career_path_files st1 !! y)).
Proof.
  induction years as [|y years IH] in st |- *; simpl.
  - split; [auto|]. split; [auto|]. intros _ st1 [= <-] y [].
  - destruct (negb (existsb (fun e => SEASON e =? y) registry)) eqn:Emiss.
    + simpl. split; [auto|]. split; [auto|].
      intros Hreg. exfalso.
      assert (Hin : existsb (fun e => SEASON e =? y) registry = true).
      { apply existsb_exists. destruct (in_map_iff SEASON registry y) as [Hm _].
        destruct (Hm (Hreg y (or_introl eq_refl))) as (e & He & Hin).
        exists e. split; [exact Hin | apply Z.eqb_eq; exact He]. }
      rewrite Hin in Emiss. discriminate.
    + destruct (player_tables fetch y (players_to_update registry y) _) as [dfs log2] eqn:Ep.
      destruct dfs as [|df dfs].
      * simpl. split; [auto|]. split; [auto|]. intros _ st1 [=].
      * set (st0 := mkScrapeState (<[y := concat (df :: dfs)]> (career_path_files st)) log2).
        destruct (IH st0) as (Hkeep & Hprov & Hall).
        split; [|split].
        -- intros y' Hy'. rewrite Hkeep by tauto. unfold st0. simpl.
           apply lookup_insert_ne. intros ->. apply Hy'. left. reflexivity.
        -- intros y' rows Hrows. destruct (Hprov y' rows Hrows) as [H0|H0]; [|right; exact H0].
           unfold st0 in H0. simpl in H0. rewrite lookup_insert in H0.
           case_decide as Hyy; [|left; exact H0].
           right. subst y'. injection H0 as <-. intros r Hr.
           assert (Hr' : In r (concat (df :: dfs))) by exact Hr.
           apply in_concat in Hr' as (df' & Hdf' & Hr'').
           assert (Hdf2 : In df' (player_tables fetch y (players_to_update registry y)
                     (scrape_log st ++ [UpdatingCareerPaths (List.length (players_to_update registry y))])).1)
             by (rewrite Ep; exact Hdf').
           destruct (player_tables_rows _ _ _ _ _ _ Hdf2 Hr'') as (e & id & Hin & Hdy & Hid & Hnm).
           destruct (players_to_update_in _ _ _ _ Hin) as (He & Hs & Hpid).
           split; [exact Hdy|]. exists e. rewrite Hid. auto.
        -- intros Hreg st1 Hst1 y' [<-|Hy'].
           ++ destruct (in_dec Z.eq_dec y years) as [Hyin|Hyin].
              ** apply (Hall (fun y'' H'' => Hreg y'' (or_intror H'')) st1 Hst1 y Hyin).
              ** pose proof (Hkeep y Hyin) as Hk. rewrite Hst1 in Hk. simpl in Hk.
                 rewrite Hk. unfold st0. simpl. rewrite lookup_insert_eq. eexists; reflexivity.
           ++ apply (Hall (fun y'' H'' => Hreg y'' (or_intror H'')) st1 Hst1 y' Hy').
Qed.

End ScrapeInvariants.

Lemma scrape_years_all_registered_no_return (fetch : Z -> profile_page)
    (registry : list Entrant) (years : list Z) (st st1 : scrape_state) :
  (forall y, In y years -> In y (map SEASON registry)) ->
  scrape_years fetch registry years st <> LoopReturned st1.
Proof.
  induction years as [|y years IH] in st |- *; simpl; intros Hreg; [discriminate|].
  assert (Hin : existsb (fun e => SEASON e =? y) registry = true).
  { apply existsb_exists. pose proof (Hreg y (or_introl eq_refl)) as Hy.
    apply in_map_iff in Hy as (e & He & Hin).
    exists e. split; [exact Hin | apply Z.eqb_eq; exact He]. }
  rewrite Hin. simpl.
  destruct (player_tables _ _ _ _) as [[|df dfs] log2]; [discriminate|].
  apply IH. intros y' Hy'. apply Hreg. right. exact Hy'.
Qed.

(** X8: [scrape_career_paths] only writes the files of the draft years it is
    asked to update; the file of any other year is left as it was, whether
    the loop ends normally, returns early or raises. *)
Theorem scrape_keeps_unrequested_years (fetch : Z -> profile_page)
    (registry : list Entrant) (years : list Z) (st : scrape_state) (y : Z)
    (Hy : ~ In y years) :
  career_path_files (scrape_result_state (scrape_career_paths fetch registry years st)) !! y
  = career_path_files st !! y.
Proof.
  destruct (scrape_years_spec fetch registry years st) as (Hkeep & _ & _).
  rewrite <- (Hkeep y Hy). unfold scrape_career_paths.
  destruct (scrape_years fetch registry years st); reflexivity.
Qed.

Lemma scrape_keeps_unrequested_years_witness :
  ~ In 2019 [2020]
  /\ career_path_files (scrape_result_state
       (scrape_career_paths example_table_page example_registry [2020]
          (mkScrapeState {[ 2019 := [] ]} []))) !! 2019
     = career_path_files (mkScrapeState {[ 2019 := [] ]} []) !! 2019.
Proof.
  split; [simpl; lia|].
  apply (scrape_keeps_unrequested_years example_table_page example_registry [2020]
           (mkScrapeState {[ 2019 := [] ]} []) 2019).
  simpl. lia.
Defined.

(** X9: every file that [scrape_career_paths] writes for a draft year holds
    only rows of players of that draft year in the registry: each row's
    [Draft_Year] is the year, and its [Proballers_ID] and [Player_Name] are
    those of a registry entry of that season. Any other file is the one the
    state had before. *)
Theorem scrape_written_rows_from_registry (fetch : Z -> profile_page)
    (registry : list Entrant) (years : list Z) (st : scrape_state) (y : Z)
    (rows : list ScrapedRow)
    (Hrows : career_path_files (scrape_result_state (scrape_career_paths fetch registry years st)) !! y
             = Some rows) :
  career_path_files st !! y = Some rows
  \/ forall r, In r rows -> row_from_registry registry y r.
Proof.
  destruct (scrape_years_spec fetch registry years st) as (_ & Hprov & _).
  apply Hprov. unfold scrape_career_paths in Hrows.
  destruct (scrape_years fetch registry years st); exact Hrows.
Qed.

Lemma scrape_written_rows_from_registry_witness :
  let rows := [scraped_row (mkEntrant "Player A" (Some 1) 2020 1) 1 2020
                 ("20-21", "Bourg-en-Bresse", "FRA-1")] in
  career_path_files (scrape_result_state
     (scrape_career_paths example_table_page example_registry [2020] empty_scrape_state)) !! 2020
  = Some rows
  /\ (career_path_files empty_scrape_state !! 2020 = Some rows
      \/ forall r, In r rows -> row_from_registry example_registry 2020 r).
Proof.
  split; [vm_compute; reflexivity|].
  apply (scrape_written_rows_from_registry example_table_page example_registry [2020]
           empty_scrape_state 2020).
  vm_compute. reflexivity.
Defined.

(** X10: when every requested draft year has an entry in the registry, the
    early [return] cannot happen: [scrape_career_paths] either raises, or
    finishes with a file for every requested year. *)
Theorem scrape_all_registered_writes_every_year (fetch : Z -> profile_page)
    (registry : list Entrant) (years : list Z) (st st' : scrape_state)
    (Hreg : forall y, In y years -> In y (map SEASON registry))
    (Hres : scrape_career_paths fetch registry years st = inr st') :
  forall y, In y years -> is_Some (career_path_files st' !! y).
Proof.
  destruct (scrape_years_spec fetch registry years st) as (_ & _ & Hall).
  unfold scrape_career_paths in Hres.
  destruct (scrape_years fetch registry years st) as [s|s|s] eqn:E; try discriminate;
    injection Hres as <-.
  - apply (Hall Hreg s eq_refl).
  - exfalso. exact (scrape_years_all_registered_no_return fetch registry years st s Hreg E).
Qed.

Lemma scrape_all_registered_writes_every_year_witness :
  (forall y, In y [2020] -> In y (map SEASON example_registry))
  /\ scrape_career_paths example_table_page example_registry [2020] empty_scrape_state
     = inr (scrape_result_state
              (scrape_career_paths example_table_page example_registry [2020] empty_scrape_state))
  /\ is_Some (career_path_files (scrape_result_state
       (scrape_career_paths example_table_page example_registry [2020] empty_scrape_state)) !! 2020).
Proof.
  assert (Hreg : forall y, In y [2020] -> In y (map SEASON example_registry)).
  { intros y [<-|[]]. simpl. left. reflexivity. }
  assert (Hres : scrape_career_paths example_table_page example_registry [2020] empty_scrape_state
     = inr (scrape_result_state
              (scrape_career_paths example_table_page example_registry [2020] empty_scrape_state)))
    by (vm_compute; reflexivity).
  split; [exact Hreg|]. split; [exact Hres|].
  apply (scrape_all_registered_writes_every_year example_table_page example_registry [2020]
           empty_scrape_state _ Hreg Hres).
  left. reflexivity.
Defined.

(* ------------------------------------------------------------------ *)
(** ** The country resolver: rows and mapping *)
(* ------------------------------------------------------------------ *)

Lemma unique_in_order_complete (seen l : list string) x :
  In x l -> In x seen \/ In x (unique_in_order seen l).
Proof.
  induction l as [|y l IH] in seen |- *; simpl; [tauto|].
  intros [<-|Hx].
  - case_decide as Hs; [left; apply list_elem_of_In; exact Hs | right; left; reflexivity].
  - case_decide as Hs; [apply IH; exact Hx|].
    destruct (IH (y :: seen) Hx) as [[<-|H]|H]; simpl; auto.
Qed.

Section CountryResolverRows.

Variables lookup_alpha_2 lookup_alpha_3 : string -> option Country.

Lemma resolve_fold_agrees (ks : list string)
    (st : list CareerPathRow * gmap string CountryMapping) :
  Forall (row_agrees_with st.2) st.1 ->
  let st' := foldl (resolve_unmapped lookup_alpha_2 lookup_alpha_3) st ks in
  Forall (row_agrees_with st'.2) st'.1.
Proof.
  induction ks as [|k ks IH] in st |- *; simpl; [tauto|].
  intros Hst. apply IH. destruct st as [rows mp]. simpl in Hst. unfold resolve_unmapped.
  destruct (country_lookup lookup_alpha_2 lookup_alpha_3 k) as [c|]; [|exact Hst].
  simpl. apply List.Forall_forall. intros r Hr. apply in_map_iff in Hr as (r0 & <- & Hr0).
  rewrite List.Forall_forall in Hst. specialize (Hst r0 Hr0).
  unfold row_agrees_with in *. case_decide as Hk.
  - unfold set_country. cbn. rewrite Hk, lookup_insert_eq. auto.
  - rewrite lookup_insert_ne by congruence. exact Hst.
Qed.

Lemma resolve_fold_unresolved (ks : list string)
    (st : list CareerPathRow * gmap string CountryMapping) r :
  In r (foldl (resolve_unmapped lookup_alpha_2 lookup_alpha_3) st ks).1 ->
  Country_Alpha3 r = None ->
  (forall k, In k ks -> League_Prefix r = k ->
     country_lookup lookup_alpha_2 lookup_alpha_3 k = None)
  /\ exists r0, In r0 st.1 /\ Country_Alpha3 r0 = None /\ League_Prefix r0 = League_Prefix r.
Proof.
  induction ks as [|k ks IH] in st |- *; simpl.
  - intros Hr Hn. split; [tauto|]. exists r. auto.
  - intros Hr Hn. destruct (IH _ Hr Hn) as [Hks (r0 & Hr0 & Hn0 & Hp0)].
    destruct st as [rows mp]. unfold resolve_unmapped in Hr0.
    destruct (country_lookup lookup_alpha_2 lookup_alpha_3 k) as [c|] eqn:Ec.
    + simpl in Hr0. apply in_map_iff in Hr0 as (r1 & Er1 & Hr1).
      case_decide as Hk1; [subst r0; discriminate|]. subst r0.
      split.
      * intros k' [<-|Hk'] Hpk'; [exfalso; apply Hk1; congruence|]. apply Hks; assumption.
      * exists r1. auto.
    + simpl in Hr0. split.
      * intros k' [<-|Hk'] Hpk'; [exact Ec|]. apply Hks; assumption.
      * exists r0. auto.
Qed.

End CountryResolverRows.

Lemma map_countries_agree (lookup_alpha_2 lookup_alpha_3 : string -> option Country)
    (rows : list CareerPathRow) (country_mappings : gmap string CountryMapping) :
  Forall (row_agrees_with (map_countries_to_alpha3 lookup_alpha_2 lookup_alpha_3 rows country_mappings).2)
    (map_countries_to_alpha3 lookup_alpha_2 lookup_alpha_3 rows country_mappings).1.
Proof.
  unfold map_countries_to_alpha3.
  apply resolve_fold_agrees. simpl. apply List.Forall_forall. intros r Hr.
  apply in_map_iff in Hr as (r0 & <- & _). unfold row_agrees_with, initial_country, set_country.
  cbn. auto.
Qed.

(** X11: after [map_countries_to_alpha3], every row's country cells are
    what the mapping written back to the JSON file gives for the row's
    league prefix: its [ALPHA-3] and [NAME], or null when the prefix has
    no entry. *)
Theorem map_countries_rows_agree_with_mapping
    (lookup_alpha_2 lookup_alpha_3 : string -> option Country)
    (rows : list CareerPathRow) (country_mappings : gmap string CountryMapping) :
  let res := map_countries_to_alpha3 lookup_alpha_2 lookup_alpha_3 rows country_mappings in
  Forall (row_agrees_with res.2) res.1.
Proof.
  apply map_countries_agree.
Qed.

(** X12: [map_countries_to_alpha3] keeps every row of the frame, in order,
    and changes nothing in a row but its [Country_Alpha3] and
    [Country_Name] cells. *)
Theorem map_countries_changes_only_country_cells
    (lookup_alpha_2 lookup_alpha_3 : string -> option Country)
    (rows : list CareerPathRow) (country_mappings : gmap string CountryMapping) :
  Forall2 (fun r r' => r' = set_country (Country_Alpha3 r') (Country_Name r') r)
    rows (map_countries_to_alpha3 lookup_alpha_2 lookup_alpha_3 rows country_mappings).1.
Proof.
  destruct (map_countries_rows lookup_alpha_2 lookup_alpha_3 rows country_mappings)
    as (g & -> & Hg).
  induction rows as [|r rows IH]; simpl; constructor; [|exact IH].
  destruct (Hg r) as (a & n & ->). reflexivity.
Qed.

(** X13: a row that leaves [map_countries_to_alpha3] with a null alpha-3
    code has a league prefix that [pycountry] could not resolve (a prefix
    of length other than 2 or 3, or a failed [get]); every prefix that
    resolves gets a code in all of its rows. *)
Theorem map_countries_unmapped_rows_failed_lookup
    (lookup_alpha_2 lookup_alpha_3 : string -> option Country)
    (rows : list CareerPathRow) (country_mappings : gmap string CountryMapping)
    (r : CareerPathRow)
    (Hr : In r (map_countries_to_alpha3 lookup_alpha_2 lookup_alpha_3 rows country_mappings).1)
    (Hnull : Country_Alpha3 r = None) :
  country_lookup lookup_alpha_2 lookup_alpha_3 (League_Prefix r) = None.
Proof.
  unfold map_countries_to_alpha3 in Hr.
  set (rows0 := map (initial_country country_mappings) rows) in Hr.
  destruct (resolve_fold_unresolved lookup_alpha_2 lookup_alpha_3 _ _ r Hr Hnull)
    as [Hks (r0 & Hr0 & Hn0 & Hp0)].
  apply (Hks (League_Prefix r)); [|reflexivity].
  simpl in Hr0. unfold countries_without_mapping.
  destruct (unique_in_order_complete [] (map League_Prefix
     (List.filter (fun r => bool_decide (Country_Alpha3 r = None)) rows0)) (League_Prefix r))
    as [[]|H]; [|exact H].
  apply in_map_iff. exists r0. split; [exact Hp0|].
  apply filter_In. split; [exact Hr0|]. apply bool_decide_eq_true. exact Hn0.
Qed.

Lemma map_countries_unmapped_rows_failed_lookup_witness :
  let res := map_countries_to_alpha3 (fun _ => None) (fun _ => None)
               example_fr_rows example_country_cache in
  exists r, In r res.1 /\ Country_Alpha3 r = None
            /\ country_lookup (fun _ => None) (fun _ => None) (League_Prefix r) = None.
Proof.
  intros res. exists (set_country None None (with_league_prefix
                        (mkPlacementRow "Player A" 1 "20-21" "Nanterre" "FR-1"))).
  assert (Hr : In (set_country None None (with_league_prefix
                        (mkPlacementRow "Player A" 1 "20-21" "Nanterre" "FR-1"))) res.1)
    by (vm_compute; left; reflexivity).
  split; [exact Hr|]. split; [reflexivity|].
  apply (map_countries_unmapped_rows_failed_lookup (fun _ => None) (fun _ => None)
           example_fr_rows example_country_cache _ Hr).
  reflexivity.
Defined.

(* ------------------------------------------------------------------ *)
(** ** The aggregated frame *)
(* ------------------------------------------------------------------ *)

Lemma merge_draft_history_cases (registry : list Entrant) r r2 :
  In r2 (merge_draft_history registry r) ->
  (registry_matches registry (Proballers_ID (placement r)) = [] /\ r2 = r)
  \/ exists e, In e registry /\ PROBALLERS_ID e = Some (Proballers_ID (placement r))
               /\ r2 = set_draft (Some (SEASON e)) (Some (OVERALL_PICK e)) r.
Proof.
  unfold merge_draft_history.
  destruct (registry_matches registry (Proballers_ID (placement r))) as [|e0 es] eqn:E.
  - intros [<-|[]]. left. auto.
  - intros H. right. apply in_map_iff in H as (e & <- & He).
    rewrite <- E in He. unfold registry_matches in He.
    apply filter_In in He as [He Hid]. apply bool_decide_eq_true in Hid.
    exists e. auto.
Qed.

Lemma mapM_None_of_in {A B} (f : A -> option B) (l : list A) x :
  In x l -> f x = None -> mapM f l = None.
Proof.
  induction l as [|y l IH]; simpl; [tauto|].
  intros [->|Hx] Hf; [rewrite Hf; reflexivity|].
  destruct (f y); simpl; [|reflexivity]. rewrite (IH Hx Hf). reflexivity.
Qed.

Lemma aggregate_output_spec (current_year : Z)
    (lookup_alpha_2 lookup_alpha_3 : string -> option Country)
    (files : list (list PlacementRow)) (registry : list Entrant)
    (country_mappings mappings' : gmap string CountryMapping) (out : list CareerPathRow)
    (Hrun : create_dataframe_of_career_paths current_year lookup_alpha_2 lookup_alpha_3
              files registry country_mappings = (mappings', Some out)) :
  NoDup out /\ Forall (aggregate_row_ok current_year files registry mappings') out.
Proof.
  unfold create_dataframe_of_career_paths in Hrun.
  destruct files as [|f fs]; [discriminate|].
  set (rows := map with_league_prefix (concat (f :: fs))) in Hrun.
  pose proof (map_countries_agree lookup_alpha_2 lookup_alpha_3 rows country_mappings) as Hagree.
  destruct (map_countries_rows lookup_alpha_2 lookup_alpha_3 rows country_mappings)
    as (g & Hg & Hgset).
  destruct (map_countries_to_alpha3 _ _ _ _) as [rows1 m1]. simpl in Hg, Hagree. subst rows1.
  destruct (mapM _ _) as [rows3|] eqn:Em; [|discriminate].
  injection Hrun as <- <-. apply mapM_Some_1 in Em.
  split; [apply drop_duplicates_nodup|].
  apply List.Forall_forall. intros r Hr.
  apply drop_duplicates_in, filter_In in Hr as [Hr3 Hkeep].
  destruct (forall2_in_r _ _ _ _ Em Hr3) as (r2 & Hr2 & Hy).
  apply in_concat in Hr2 as (ms & Hms & Hr2). apply in_map_iff in Hms as (r1 & <- & Hr1).
  rewrite List.Forall_forall in Hagree. pose proof (Hagree r1 Hr1) as Hag1.
  unfold rows in Hr1. apply in_map_iff in Hr1 as (q0 & <- & Hq0).
  apply in_map_iff in Hq0 as (q & <- & Hq).
  destruct (Hgset (with_league_prefix q)) as (a & n & Eg). rewrite Eg in Hr2, Hag1.
  unfold with_years_from_draft in Hy.
  destruct (years_from_draft_cell _ _ _) as [o|] eqn:Ec; simpl in Hy; [|discriminate].
  injection Hy as <-.
  destruct (merge_draft_history_cases _ _ _ Hr2) as [[_ ->]|(e & He & Hid & ->)].
  - exfalso. unfold keep_row in Hkeep. cbn in Hkeep, Ec.
    unfold years_from_draft_cell in Ec.
    destruct (py_int _); simpl in Ec; [|discriminate]. injection Ec as <-. discriminate.
  - unfold aggregate_row_ok. cbn in *.
    unfold years_from_draft_cell in Ec.
    destruct (calculate_years_since_draft current_year (Season q) (SEASON e))
      as [[log y]|] eqn:Ecalc; simpl in Ec; [|discriminate].
    injection Ec as <-. cbn in Hkeep. apply andb_true_iff in Hkeep as [H1 H2].
    apply Z.ltb_lt in H1. apply Z.leb_le in H2.
    split; [exact Hq|]. split; [reflexivity|]. split; [exact Hag1|].
    exists e, y, log. repeat split; auto; lia.
Qed.

(** X14: every row of the aggregated frame comes from a placement row of
    the files and a registry row with its [Proballers_ID]: it keeps its
    placement and league prefix, has the country cells of the mapping saved
    to the JSON file, the registry row's [SEASON] and [OVERALL_PICK] as draft
    year and pick, and the years from draft that [calculate_years_since_draft]
    gives for them, in (-10, 30]. The frame has no two equal rows. *)
Theorem aggregate_output_rows (current_year : Z)
    (lookup_alpha_2 lookup_alpha_3 : string -> option Country)
    (files : list (list PlacementRow)) (registry : list Entrant)
    (country_mappings mappings' : gmap string CountryMapping) (out : list CareerPathRow)
    (Hrun : create_dataframe_of_career_paths current_year lookup_alpha_2 lookup_alpha_3
              files registry country_mappings = (mappings', Some out)) :
  NoDup out /\ Forall (aggregate_row_ok current_year files registry mappings') out.
Proof.
  exact (aggregate_output_spec current_year lookup_alpha_2 lookup_alpha_3 files registry
           country_mappings mappings' out Hrun).
Qed.

Lemma aggregate_output_rows_witness :
  let p := mkPlacementRow "Player A" 1 "23-24" "Le Mans" "FRA-1" in
  let out := [mkCareerPathRow p "FRA" None None (Some 2023) (Some 1) (Some 0)] in
  create_dataframe_of_career_paths 2026 (fun _ => None) (fun _ => None)
    [[p]] example_draft_registry ∅ = (∅, Some out)
  /\ NoDup out /\ Forall (aggregate_row_ok 2026 [[p]] example_draft_registry ∅) out.
Proof.
  intros p out.
  assert (Hrun : create_dataframe_of_career_paths 2026 (fun _ => None) (fun _ => None)
                   [[p]] example_draft_registry ∅ = (∅, Some out)) by (vm_compute; reflexivity).
  split; [exact Hrun|].
  apply (aggregate_output_rows 2026 (fun _ => None) (fun _ => None) [[p]] example_draft_registry
           ∅ ∅ out Hrun).
Defined.

(** X15: a season label in any of the files whose start is not an integer
    makes [create_dataframe_of_career_paths] raise (the [ValueError] of
    [int] in [calculate_years_since_draft]), whether or not the player has a
    registry row; the country mapping has been saved by then. *)
Theorem aggregate_unparsable_season_raises (current_year : Z)
    (lookup_alpha_2 lookup_alpha_3 : string -> option Country)
    (files : list (list PlacementRow)) (registry : list Entrant)
    (country_mappings : gmap string CountryMapping) (p : PlacementRow)
    (Hp : In p (concat files))
    (Hbad : py_int (split_dash_first (Season p)) = None) :
  create_dataframe_of_career_paths current_year lookup_alpha_2 lookup_alpha_3
    files registry country_mappings
  = ((map_countries_to_alpha3 lookup_alpha_2 lookup_alpha_3
        (map with_league_prefix (concat files)) country_mappings).2, None).
Proof.
  unfold create_dataframe_of_career_paths.
  destruct files as [|f fs]; [destruct Hp|].
  set (rows := map with_league_prefix (concat (f :: fs))).
  destruct (map_countries_rows lookup_alpha_2 lookup_alpha_3 rows country_mappings)
    as (g & Hg & Hgset).
  destruct (map_countries_to_alpha3 _ _ _ _) as [rows1 m1]. simpl in Hg |- *. subst rows1.
  set (r1 := g (with_league_prefix p)).
  assert (Hr1 : placement r1 = p).
  { unfold r1. destruct (Hgset (with_league_prefix p)) as (a & n & ->). reflexivity. }
  assert (Hfail : forall r2, placement r2 = p -> with_years_from_draft current_year r2 = None).
  { intros r2 Hpl. unfold with_years_from_draft, years_from_draft_cell.
    rewrite Hpl. destruct (Draft_Year r2) as [d|].
    - unfold calculate_years_since_draft, calculate_years_in_order. rewrite Hbad. reflexivity.
    - rewrite Hbad. reflexivity. }
  assert (Hin1 : In r1 (map g rows)) by (apply in_map; unfold rows; apply in_map; exact Hp).
  destruct (merge_draft_history registry r1) as [|r2 rs] eqn:Em.
  - exfalso. unfold merge_draft_history in Em.
    destruct (registry_matches _ _); discriminate.
  - rewrite (mapM_None_of_in _ _ r2); [reflexivity| |].
    + apply in_concat. exists (r2 :: rs). split; [|left; reflexivity].
      rewrite <- Em. apply in_map. exact Hin1.
    + apply Hfail. rewrite <- Hr1.
      apply (merge_draft_history_placement registry r1). rewrite Em. left. reflexivity.
Qed.

Lemma aggregate_unparsable_season_raises_witness :
  let p := mkPlacementRow "Player A" 1 "xx-06" "Le Mans" "FRA-1" in
  In p (concat [[p]]) /\ py_int (split_dash_first (Season p)) = None
  /\ create_dataframe_of_career_paths 2026 (fun _ => None) (fun _ => None)
       [[p]] example_draft_registry ∅
     = ((map_countries_to_alpha3 (fun _ => None) (fun _ => None)
           (map with_league_prefix (concat [[p]])) ∅).2, None).
Proof.
  intros p. split; [left; reflexivity|]. split; [reflexivity|].
  apply (aggregate_unparsable_season_raises 2026 (fun _ => None) (fun _ => None) [[p]]
           example_draft_registry ∅ p); [left; reflexivity | reflexivity].
Defined.

(* ------------------------------------------------------------------ *)
(** ** The plotted frame *)
(* ------------------------------------------------------------------ *)

Section PlotData.

Lemma group_key_le_total a b :
  group_key_le a b = false -> group_key_le b a = true.
Proof.
  destruct a as [[y1 a1] n1], b as [[y2 a2] n2]. unfold group_key_le.
  rewrite (String.compare_antisym a2 a1), (String.compare_antisym n2 n1).
  destruct (Z.lt_trichotomy y1 y2) as [Hl|[<-|Hg]].
  - rewrite (proj2 (Z.ltb_lt y1 y2) Hl). discriminate.
  - rewrite Z.ltb_irrefl, Z.eqb_refl. simpl.
    destruct (String.compare a1 a2), (String.compare n1 n2); simpl; congruence.
  - rewrite (proj2 (Z.ltb_lt y2 y1) Hg). reflexivity.
Qed.

Lemma insert_group_key_perm k l : Permutation (insert_group_key k l) (k :: l).
Proof.
  induction l as [|k' l IH]; simpl; [reflexivity|].
  destruct (group_key_le k k'); [reflexivity|].
  rewrite IH. apply perm_swap.
Qed.

Lemma insert_group_key_sorted k l : group_key_sorted l -> group_key_sorted (insert_group_key k l).
Proof.
  unfold group_key_sorted. induction 1 as [|k' l Hs IH Hhd]; simpl.
  - repeat constructor.
  - destruct (group_key_le k k') eqn:Ekk.
    + constructor; [constructor; auto | constructor; auto].
    + apply group_key_le_total in Ekk. constructor; [exact IH|].
      destruct l as [|k'' l]; simpl.
      * constructor; auto.
      * inversion Hhd; subst.
        destruct (group_key_le k k''); constructor; auto.
Qed.

Lemma distinct_group_keys_spec (seen : list (Z * string * string)) (l : list CareerPathRow) :
  (forall k, In k (distinct_group_keys seen l)
             <-> In k seen \/ exists r, In r l /\ group_key r = Some k)
  /\ (List.NoDup seen -> List.NoDup (distinct_group_keys seen l))
  /\ (group_key_sorted seen -> group_key_sorted (distinct_group_keys seen l)).
Proof.
  induction l as [|r l IH] in seen |- *; simpl.
  - split; [|tauto]. intros k. split; [tauto|]. intros [H|(r & [] & _)]. exact H.
  - destruct (group_key r) as [k0|] eqn:Ek.
    + case_decide as Hin; rewrite list_elem_of_In in Hin.
      * destruct (IH seen) as (Hi & Hn & Hs). split; [|tauto].
        intros k. rewrite Hi. split.
        -- intros [H|(r' & Hr' & Hk)]; [left; exact H | right; exists r'; auto].
        -- intros [H|(r' & [<-|Hr'] & Hk)]; [left; exact H | | right; exists r'; auto].
           left. congruence.
      * destruct (IH (insert_group_key k0 seen)) as (Hi & Hn & Hs). split; [|split].
        -- intros k. rewrite Hi.
           pose proof (insert_group_key_perm k0 seen) as Hp.
           split.
           ++ intros [H|(r' & Hr' & Hk)].
              ** apply (Permutation_in _ Hp) in H as [<-|H]; [|left; exact H].
                 right. exists r. auto.
              ** right. exists r'. auto.
           ++ intros [H|(r' & [<-|Hr'] & Hk)].
              ** left. apply (Permutation_in _ (Permutation_sym Hp)). right. exact H.
              ** left. apply (Permutation_in _ (Permutation_sym Hp)). left. congruence.
              ** right. exists r'. auto.
        -- intros Hnd. apply Hn. apply (Permutation_NoDup (Permutation_sym (insert_group_key_perm k0 seen))).
           constructor; assumption.
        -- intros Hs0. apply Hs. apply insert_group_key_sorted. exact Hs0.
    + destruct (IH seen) as (Hi & Hn & Hs). split; [|tauto].
      intros k. rewrite Hi. split.
      * intros [H|(r' & Hr' & Hk)]; [left; exact H | right; exists r'; auto].
      * intros [H|(r' & [<-|Hr'] & Hk)]; [left; exact H | congruence | right; exists r'; auto].
Qed.

Lemma drop_duplicates_subset_aux_in seen l r :
  In r (drop_duplicates_subset_aux seen l) -> In r l /\ ~ In (player_year_country r) seen.
Proof.
  induction l as [|r' l IH] in seen |- *; simpl; [tauto|].
  case_decide as Hs; rewrite list_elem_of_In in Hs.
  - intros H. destruct (IH _ H). auto.
  - intros [<-|H]; [auto|]. destruct (IH _ H) as [H1 H2]. simpl in H2. auto.
Qed.

Lemma drop_duplicates_subset_aux_cover seen l r :
  In r l -> In (player_year_country r) seen
            \/ exists r', In r' (drop_duplicates_subset_aux seen l)
                          /\ player_year_country r' = player_year_country r.
Proof.
  induction l as [|r' l IH] in seen |- *; simpl; [tauto|].
  intros [<-|Hr]; case_decide as Hs; rewrite list_elem_of_In in Hs.
  - left. exact Hs.
  - right. exists r'. simpl. auto.
  - apply IH. exact Hr.
  - destruct (IH (player_year_country r' :: seen) Hr) as [[Heq|H]|(r'' & ? & ?)].
    + right. exists r'. simpl. auto.
    + left. exact H.
    + right. exists r''. simpl. auto.
Qed.

Lemma drop_duplicates_subset_aux_nodup seen l :
  List.NoDup (map player_year_country (drop_duplicates_subset_aux seen l)).
Proof.
  induction l as [|r l IH] in seen |- *; simpl; [constructor|].
  case_decide; [apply IH|]. simpl. constructor; [|apply IH].
  intros Hin. apply in_map_iff in Hin as (r' & Hk & Hr').
  apply drop_duplicates_subset_aux_in in Hr' as [_ Hn]. apply Hn. left. symmetry. exact Hk.
Qed.

Lemma group_key_same_cells r r' :
  player_year_country r = player_year_country r' -> Country_Name r = Country_Name r' ->
  group_key r = group_key r'.
Proof.
  unfold player_year_country, group_key. intros [= _ Hy Ha] Hn. rewrite Hy, Ha, Hn. reflexivity.
Qed.

Lemma countries_per_year_from_draft_keys (df : list CareerPathRow) :
  map plotted_key (countries_per_year_from_draft df)
  = distinct_group_keys [] (drop_duplicates_subset df).
Proof.
  unfold countries_per_year_from_draft. rewrite map_map.
  rewrite <- (map_id (distinct_group_keys [] _)) at 2. apply map_ext.
  intros [[y a] n]. reflexivity.
Qed.

Lemma plotted_key_from_input (df : list CareerPathRow) k :
  In k (map plotted_key (countries_per_year_from_draft df)) ->
  exists r, In r df /\ group_key r = Some k.
Proof.
  rewrite countries_per_year_from_draft_keys.
  intros Hk. apply (proj1 (distinct_group_keys_spec [] _)) in Hk as [[]|(r & Hr & Hkr)].
  exists r. split; [|exact Hkr].
  apply drop_duplicates_subset_aux_in in Hr. tauto.
Qed.

End PlotData.

(** X17: when rows of the input that agree on player, years from draft and
    alpha-3 code also agree on the country name, every (years, code, name)
    of an input row is plotted, and its [Count] is the number of distinct
    players ([Proballers_ID]) with a row of that key: a player is counted
    once per year and country, however many rows (teams) it has there. *)
Theorem plot_count_is_distinct_players (df : list CareerPathRow)
    (Hname : forall r r', In r df -> In r' df ->
               player_year_country r = player_year_country r' ->
               Country_Name r = Country_Name r') :
  let out := countries_per_year_from_draft df in
  (forall k, In k (map plotted_key out) <-> exists r, In r df /\ group_key r = Some k)
  /\ forall c, In c out ->
       exists ids, List.NoDup ids
         /\ (forall i, In i ids <-> exists r, In r df /\ group_key r = Some (plotted_key c)
                                             /\ Proballers_ID (placement r) = i)
         /\ Count c = List.length ids.
Proof.
  intros out. set (dd := drop_duplicates_subset df).
  assert (Hsub : forall r, In r dd -> In r df).
  { intros r Hr. apply drop_duplicates_subset_aux_in in Hr. tauto. }
  assert (Hcov : forall r k, In r df -> group_key r = Some k ->
                   exists r', In r' dd /\ group_key r' = Some k
                              /\ Proballers_ID (placement r') = Proballers_ID (placement r)).
  { intros r k Hr Hk. destruct (drop_duplicates_subset_aux_cover [] df r Hr) as [[]|(r' & Hr' & Hp)].
    exists r'. split; [exact Hr'|].
    rewrite (group_key_same_cells r' r Hp (Hname r' r (Hsub r' Hr') Hr Hp)).
    split; [exact Hk|]. unfold player_year_country in Hp. congruence. }
  split.
  - intros k. split; [apply plotted_key_from_input|].
    intros (r & Hr & Hk). unfold out. rewrite countries_per_year_from_draft_keys.
    apply (proj1 (distinct_group_keys_spec [] _)). right.
    destruct (Hcov r k Hr Hk) as (r' & Hr' & Hk' & _). exists r'. auto.
  - intros c Hc. unfold out, countries_per_year_from_draft in Hc.
    apply in_map_iff in Hc as ([[y a] n] & <- & _). fold dd. simpl.
    set (G := rows_in_group (y, a, n) dd).
    exists (map (fun r => Proballers_ID (placement r)) G). split; [|split].
    + assert (Hnd : List.NoDup (map player_year_country G))
        by (apply list_nodup_map_filter, drop_duplicates_subset_aux_nodup).
      assert (Hm : map player_year_country G
                   = map (fun i => (i, Some y, Some a)) (map (fun r => Proballers_ID (placement r)) G)).
      { rewrite map_map. apply map_ext_in. intros r Hr.
        unfold G, rows_in_group in Hr. apply filter_In in Hr as [_ Hk].
        apply bool_decide_eq_true in Hk. unfold group_key in Hk. unfold player_year_country.
        destruct (Years_From_Draft r), (Country_Alpha3 r), (Country_Name r); try discriminate.
        injection Hk as -> -> _. reflexivity. }
      rewrite Hm in Hnd. exact (NoDup_map_inv _ _ Hnd).
    + intros i. split.
      * intros Hi. apply in_map_iff in Hi as (r & <- & Hr).
        unfold G, rows_in_group in Hr. apply filter_In in Hr as [Hr Hk].
        apply bool_decide_eq_true in Hk. exists r. auto.
      * intros (r & Hr & Hk & <-). destruct (Hcov r _ Hr Hk) as (r' & Hr' & Hk' & Hid).
        apply in_map_iff. exists r'. split; [exact Hid|].
        unfold G, rows_in_group. apply filter_In. split; [exact Hr'|].
        apply bool_decide_eq_true. exact Hk'.
    + rewrite length_map. reflexivity.
Qed.

Lemma plot_count_is_distinct_players_witness :
  let df := [example_plot_row 1 "Le Mans"; example_plot_row 1 "Nanterre";
             example_plot_row 2 "Le Mans"] in
  (forall r r', In r df -> In r' df ->
     player_year_country r = player_year_country r' -> Country_Name r = Country_Name r')
  /\ countries_per_year_from_draft df = [mkCountryYearCount 0 "FRA" "France" 2]
  /\ exists ids, List.NoDup ids
       /\ (forall i, In i ids <-> exists r, In r df /\ group_key r = Some (0, "FRA", "France")
                                           /\ Proballers_ID (placement r) = i)
       /\ (2 = List.length ids)%nat.
Proof.
  intros df.
  assert (Hname : forall r r', In r df -> In r' df ->
     player_year_country r = player_year_country r' -> Country_Name r = Country_Name r').
  { intros r r' Hr Hr' _.
    destruct Hr as [<-|[<-|[<-|[]]]]; destruct Hr' as [<-|[<-|[<-|[]]]]; reflexivity. }
  split; [exact Hname|]. split; [reflexivity|].
  apply (proj2 (plot_count_is_distinct_players df Hname)
           (mkCountryYearCount 0 "FRA" "France" 2)).
  vm_compute. left. reflexivity.
Defined.

(** X18: composed with [create_dataframe_of_career_paths], the plot shows
    only years from draft in (-10, 30], and only countries whose code and
    name the saved mapping gives for some league prefix. *)
Theorem plot_of_aggregate_within_window (current_year : Z)
    (lookup_alpha_2 lookup_alpha_3 : string -> option Country)
    (files : list (list PlacementRow)) (registry : list Entrant)
    (country_mappings mappings' : gmap string CountryMapping) (out : list CareerPathRow)
    (Hrun : create_dataframe_of_career_paths current_year lookup_alpha_2 lookup_alpha_3
              files registry country_mappings = (mappings', Some out)) :
  forall c, In c (countries_per_year_from_draft out) ->
    -10 < cy_Years_From_Draft c <= 30
    /\ exists prefix, mappings' !! prefix ≫= ALPHA_3 = Some (cy_Country_Alpha3 c)
                      /\ mappings' !! prefix ≫= NAME = Some (cy_Country_Name c).
Proof.
  intros c Hc.
  destruct (plotted_key_from_input out (plotted_key c)) as (r & Hr & Hk); [apply in_map; exact Hc|].
  destruct (aggregate_output_spec current_year lookup_alpha_2 lookup_alpha_3 files registry
              country_mappings mappings' out Hrun) as [_ Hall].
  rewrite List.Forall_forall in Hall.
  destruct (Hall r Hr) as (_ & _ & [Ha Hn] & (e & y & log & _ & _ & _ & _ & Hy & Hwin & _)).
  unfold group_key, plotted_key in Hk. rewrite Hy in Hk.
  destruct (Country_Alpha3 r) as [a|], (Country_Name r) as [n|]; try discriminate.
  injection Hk as Hy' Ha' Hn'. split; [lia|].
  exists (League_Prefix r). rewrite <- Ha, <- Hn. split; congruence.
Qed.

Lemma plot_of_aggregate_within_window_witness :
  let p := mkPlacementRow "Player A" 1 "23-24" "Le Mans" "FRA-1" in
  let lookup3 := fun k => if String.eqb k "FRA" then Some (mkCountry "FRA" "France") else None in
  let out := [mkCareerPathRow p "FRA" (Some "FRA") (Some "France") (Some 2023) (Some 1) (Some 0)] in
  let m := {[ "FRA" := mkCountryMapping (Some "FRA") (Some "France") ]} : gmap string CountryMapping in
  create_dataframe_of_career_paths 2026 (fun _ => None) lookup3 [[p]] example_draft_registry ∅
    = (m, Some out)
  /\ In (mkCountryYearCount 0 "FRA" "France" 1) (countries_per_year_from_draft out)
  /\ -10 < 0 <= 30
  /\ exists prefix, m !! prefix ≫= ALPHA_3 = Some "FRA" /\ m !! prefix ≫= NAME = Some "France".
Proof.
  intros p lookup3 out m.
  assert (Hrun : create_dataframe_of_career_paths 2026 (fun _ => None) lookup3 [[p]]
                   example_draft_registry ∅ = (m, Some out)) by (vm_compute; reflexivity).
  assert (Hc : In (mkCountryYearCount 0 "FRA" "France" 1) (countries_per_year_from_draft out))
    by (vm_compute; left; reflexivity).
  split; [exact Hrun|]. split; [exact Hc|].
  exact (plot_of_aggregate_within_window 2026 (fun _ => None) lookup3 [[p]] example_draft_registry
           ∅ m out Hrun _ Hc).
Defined.
